(** * fixit-cli: the create, check and help actions

    A shallow embedding of [src/bin/actions.ts] (the @clack/prompts and
    picocolors implementation) and of [src/lib/actions.ts] (the older
    inquirer, ora and chalk implementation).

    The actions are orchestration code: every step is a call into a
    collaborator (prompt library, simple-git, shelljs, the release fetcher,
    the stopwatch).  An action is therefore embedded as a computation that
    reads the collaborators' answers from a [World] and writes the calls it
    makes, in order, to a trace of [event]s; it stops early where the source
    returns from its callback, calls [process.exit], or leaves a rejected
    promise without a handler.

    Conventions of the embedding:
    - a call that takes a callback is recorded when it is issued; what the
      callback does is recorded when the callback runs.  The remote removal
      and the history deletion are started one after the other with nothing
      in the source ordering their completion, so the world says when the
      callback of the removal runs ([removeRemote_arrival]);
    - [git.clean] and [git.cwd] are given neither a callback nor a
      continuation, so only the calls are recorded;
    - a submission to the project-name prompt is what the user enters: the
      content of the text field in src/bin/actions.ts, where the name given
      on the command line is the field's initial content, and the line typed
      in src/lib/actions.ts, where that name is the [default] an empty line
      stands for;
    - [getLatestRelease] and [timer] live in lib/utils.js, which is not
      among the sources: the fetch is a collaborator whose result the world
      supplies, the stopwatch is modelled from its description. *)

From stdpp Require Import base strings list gmap pretty.
From Stdlib Require Import ZArith.

Local Open Scope Z_scope.
Local Open Scope string_scope.

(** ** JavaScript values and strings *)

(** The values that occur as properties of the clone options object. *)
Inductive jsval :=
| JNum (n : Z)
| JStr (s : string)
| JNull
| JUndefined.

#[global] Instance jsval_eq_dec : EqDecision jsval.
Proof. solve_decision. Defined.

(** A JavaScript [Error] object; [toString] is what string conversion
    (template literals, [chalk.red(err)]) yields. *)
Record Error := { ename : string; message : string }.

#[global] Instance Error_eq_dec : EqDecision Error.
Proof. solve_decision. Defined.

Definition Error_toString (e : Error) : string :=
  if decide (ename e = "") then message e
  else if decide (message e = "") then ename e
  else ename e +:+ ": " +:+ message e.

(** The line feed written [\n] in the source. *)
Definition LF_char : Ascii.ascii := Ascii.ascii_of_nat 10.
Definition LF : string := String LF_char "".

(** [s.split('\n')]: the pieces between line feeds; never empty. *)
Fixpoint split_lines (s : string) : list string :=
  match s with
  | "" => [""]
  | String ch rest =>
      if decide (ch = LF_char) then "" :: split_lines rest
      else match split_lines rest with
           | [] => [String ch ""]
           | l :: ls => String ch l :: ls
           end
  end.

(** [lines.join('\n')]. *)
Fixpoint join_lines (ls : list string) : string :=
  match ls with
  | [] => ""
  | [l] => l
  | l :: rest => l +:+ LF +:+ join_lines rest
  end.

(** ['.'.repeat(n)]. *)
Fixpoint repeat_dot (n : nat) : string :=
  match n with
  | O => ""
  | S k => "." +:+ repeat_dot k
  end.

(** [x || ''] on an optional string: [undefined] and [''] are falsy. *)
Definition or_empty (x : option string) : string :=
  match x with
  | Some s => s
  | None => ""
  end.

(** [needle] occurs in [s]. *)
Definition occurs_in (needle s : string) : Prop :=
  ∃ pre post, s = pre +:+ needle +:+ post.

(** ** The data model *)

(** The two template kinds, the values ['go'] and ['git'] of the select. *)
Inductive template := go | git.

#[global] Instance template_eq_dec : EqDecision template.
Proof. solve_decision. Defined.

Definition repositories (t : template) : string :=
  match t with
  | go => "https://github.com/hugo-fixit/hugo-fixit-starter.git"
  | git => "https://github.com/hugo-fixit/hugo-fixit-starter1.git"
  end.

(** [interface ReleaseInfo]. *)
Record ReleaseInfo := {
  version : string;
  changelog : string;
  homeUrl : string
}.

(** [SimpleGitProgressEvent], together with the draw of [Math.random()]
    taken when the event is rendered ([Math.floor(Math.random() * 3)]). *)
Record SimpleGitProgressEvent := {
  method : string;
  stage : string;
  progress : N;
  random3 : nat
}.

(** The clone options object: [CloneOptions] is a JavaScript object used
    as a map from flag to value. *)
Definition cloneOptions (t : template) : gmap string jsval :=
  let base : gmap string jsval :=
    <["--single-branch" := JNull]>
      (<["--branch" := JStr "main"]>
         (<["--depth" := JNum 1]> ∅)) in
  if decide (t = git) then
    <["--shallow-submodules" := JUndefined]>
      (<["--recurse-submodules" := JUndefined]> base)
  else base.

(** [validate] of the project-name prompt of [src/bin/actions.ts]:
    [Some msg] is the returned error string, [None] is [undefined]. *)
Definition validate (val : string) : option string :=
  if decide (val = "") then Some "project name is required!" else None.

(** [validate] of the project-name prompt of [src/lib/actions.ts]:
    either the error string or [true]. *)
Definition validate_lib (val : string) : string + bool :=
  if decide (val = "") then inl "project name is required" else inr true.

(** ** Collaborators

    What the program does to the outside is recorded as a trace of events,
    one per call into a collaborator, in the order the calls are made. *)

(** The spinners of the source, by the name of the variable holding them. *)
Inductive spinner_id := spinnerClone | spinnerInit | spinner.

#[global] Instance spinner_id_eq_dec : EqDecision spinner_id.
Proof. solve_decision. Defined.

Inductive event :=
(* the stopwatch of lib/utils.js *)
| TimerStart
| TimerStop
(* @clack/prompts *)
| Text (msg placeholder initialValue : string)
| ValidateError (msg : string)
| Select (msg : string) (options : list (template * string))
| Confirm (msg : string)
| Cancel (msg : string)
| Intro (msg : string)
| Outro (msg : string)
| LogStep (msg : string)
| LogInfo (msg : string)
| LogSuccess (msg : string)
| LogWarn (msg : string)
| LogError (msg : string)
| SpinnerStart (sp : spinner_id) (msg : string)
| SpinnerMessage (sp : spinner_id) (msg : string)
| SpinnerStop (sp : spinner_id) (msg : string) (code : Z)
(* simple-git *)
| GitClean (mode : string)
| GitClone (repo localPath : string) (options : gmap string jsval)
| GitCwd (dir : string)
| GitRemoveRemote (remote : string)
| GitRaw (args : list string)
| GitAdd (files : string)
| GitCommit (msg : string)
(* the release fetcher of lib/utils.js *)
| GetLatestRelease (owner repo : string)
(* shelljs *)
| ShellWhich (cmd : string)
| ShellCd (dir : string)
| ShellExec (cmd : string)
(* node:process *)
| ProcessExit (code : Z)
(* inquirer, ora and console, used by src/lib/actions.ts only *)
| InquirerInput (msg default : string)
| InquirerList (msg : string) (choices : list (string * template))
| ConsoleLog (msg : string)
| OraStart (sp : spinner_id) (text : string)
| OraText (sp : spinner_id) (text : string)
| OraFail (sp : spinner_id)
| OraSucceed (sp : spinner_id).

#[global] Instance event_eq_dec : EqDecision event.
Proof. solve_decision. Defined.

(** What the user does at the project-name prompt: submit what is entered
    (the content of the text field, or the line typed), or press the cancel
    key. *)
Inductive submission :=
| Submit (val : string)
| Abort.

(** What the user does at the template select. *)
Inductive selection :=
| Pick (t : template)
| SelectCancel.

(** What [p.confirm] resolves to: a boolean, or the cancel symbol. *)
Inductive confirm_answer :=
| ConfirmValue (b : bool)
| ConfirmCancel.

(** JavaScript truthiness of a confirm result: a symbol is truthy. *)
Definition truthy (a : confirm_answer) : bool :=
  match a with
  | ConfirmValue b => b
  | ConfirmCancel => true
  end.

(** When the callback of [git.removeRemote] runs, relative to the steps
    that follow its call: before the callback of the history deletion, or
    after it, while [git.add] or [git.commit] is awaited.  When the run is
    abandoned before that point, the callback runs after the abandonment. *)
Inductive arrival :=
| BeforeHistoryDeletion
| DuringAdd
| DuringCommit.

Definition same_arrival (a b : arrival) : bool :=
  match a, b with
  | BeforeHistoryDeletion, BeforeHistoryDeletion
  | DuringAdd, DuringAdd
  | DuringCommit, DuringCommit => true
  | _, _ => false
  end.

(** Everything the collaborators answer during one run.  For the git
    operations [None] is completion without error and [Some err] is the
    error handed to the callback (or the rejection of the awaited promise). *)
Record World := {
  argv3 : option string;
  name_inputs : list submission;
  template_input : selection;
  clone_progress : list SimpleGitProgressEvent;
  clone_result : option Error;
  removeRemote_result : option Error;
  removeRemote_arrival : arrival;
  raw_result : option Error;
  add_result : option Error;
  commit_result : option Error;
  confirm_input : confirm_answer;
  which_hugo : option string;
  fetch_result : Error + ReleaseInfo;
  elapsed : Z
}.

(** How a run ends. *)
Inductive outcome :=
| Returned                (* the last callback returned; nothing is left to run *)
| Exited (code : Z)       (* [process.exit(code)] *)
| Rejected (e : Error)    (* a promise rejected with [e] that the source gives no handler *)
| Pending                 (* a prompt still waits for input *)
| Interrupted.            (* the user broke off a prompt that has no cancel handler *)

#[global] Instance outcome_eq_dec : EqDecision outcome.
Proof. solve_decision. Defined.

(** The exit status of the node process, where the source decides it: the
    argument of [process.exit], and 0 when the program runs out of work
    without setting a status.  After a rejection the source does not handle,
    the status is up to the listeners installed for unhandled rejections
    (the prompt library installs one with its spinner), not to the source. *)
Definition exit_status (o : outcome) : option Z :=
  match o with
  | Returned => Some 0
  | Exited code => Some code
  | Rejected _ | Pending | Interrupted => None
  end.

(** ** The monad of runs: a trace writer that can stop early *)

Definition Run (A : Type) : Type := list event * (outcome + A).

#[global] Instance Run_ret : MRet Run := λ A x, ([], inr x).

#[global] Instance Run_bind : MBind Run := λ A B f m,
  match m with
  | (t, inl o) => (t, inl o)
  | (t, inr a) => let '(t', r) := f a in ((t ++ t')%list, r)
  end.

Definition emit (e : event) : Run () := ([e], inr ()).

Definition halt {A : Type} (o : outcome) : Run A := ([], inl o).

(** [process.exit(code)] does not return. *)
Definition process_exit {A : Type} (code : Z) : Run A :=
  emit (ProcessExit code);; halt (Exited code).

(** [await promise] inside an async function: a rejection leaves it. *)
Definition await (result : option Error) : Run () :=
  match result with
  | Some err => halt (Rejected err)
  | None => mret ()
  end.

(** [await promise] while a callback is still outstanding: when the promise
    rejects, the async function is left and the callback runs after that. *)
Definition await_leaving (result : option Error) (outstanding : Run ()) : Run () :=
  match result with
  | Some err => outstanding;; halt (Rejected err)
  | None => mret ()
  end.

Definition trace (m : Run ()) : list event := m.1.

Definition result (m : Run ()) : outcome :=
  match m.2 with
  | inl o => o
  | inr _ => Returned
  end.

(** ** Presentation

    The colour functions of picocolors (and of chalk in the older
    implementation) turn a string into a string; which escape codes they
    add depends on the terminal.  [seconds ms] is the text JavaScript
    prints for the number [ms / 1000]. *)
Class Terminal := {
  cyan : string → string;
  yellow : string → string;
  green : string → string;
  red : string → string;
  blue : string → string;
  gray : string → string;
  magenta : string → string;
  seconds : Z → string
}.

Section Actions.
Context `{Terminal}.

(** *** Pieces shared by the actions of src/bin/actions.ts *)

(** Modelled from the spec: the stopwatch [timer] of lib/utils.js, which is
    not among the sources.  [start()] records a timestamp and [stop()]
    returns the elapsed time; the value returned is [elapsed] of the world. *)
Definition timer_start : Run () := emit TimerStart.

Definition timer_stop (w : World) : Run Z := emit TimerStop;; mret (elapsed w).

(** [p.outro(`Done in ${timer.stop() / 1000}s`)]. *)
Definition outro_done (w : World) : Run () :=
  ms ← timer_stop w;
  emit (Outro ("Done in " +:+ seconds ms +:+ "s")).

(** [`cd ${answers.name} && hugo server -O`]. *)
Definition server_command (name : string) : string :=
  "cd " +:+ name +:+ " && hugo server -O".

(** The [onCancel] handler of the prompt group. *)
Definition onCancel {A : Type} : Run A :=
  emit (Cancel "Operation cancelled.");; process_exit 0.

(** The project-name text prompt: it stays open, showing the message of
    [validate], until a submission passes; the cancel key yields the cancel
    symbol ([None]). *)
Fixpoint text_prompt (inputs : list submission) : Run (option string) :=
  match inputs with
  | [] => halt Pending
  | Abort :: _ => mret None
  | Submit val :: rest =>
      match validate val with
      | Some msg => emit (ValidateError msg);; text_prompt rest
      | None => mret (Some val)
      end
  end.

(** [p.group({ name, template }, { onCancel })]. *)
Definition prompt_group (w : World) : Run (string * template) :=
  emit (Text "Please input project name:" "project name" (or_empty (argv3 w)));;
  name ← text_prompt (name_inputs w);
  match name with
  | None => onCancel
  | Some name =>
      emit (Select "Please choose a template:"
              [(go, "Hugo module based"); (git, "Git submodule based")]);;
      match template_input w with
      | SelectCancel => onCancel
      | Pick t => mret (name, t)
      end
  end.

(** The [progress] handler given to [simpleGit]. *)
Definition progress_message (ev : SimpleGitProgressEvent) : string :=
  yellow ("git." +:+ method ev +:+ " " +:+ stage ev +:+ " stage "
          +:+ pretty (progress ev) +:+ "% complete"
          +:+ repeat_dot (random3 ev `mod` 3 + 1)%nat).

Fixpoint report_progress (evs : list SimpleGitProgressEvent) : Run () :=
  match evs with
  | [] => mret ()
  | ev :: rest =>
      emit (SpinnerMessage spinnerClone (progress_message ev));;
      report_progress rest
  end.

(** *** createAction of src/bin/actions.ts *)

(** [// 3. start development server], the code after [if (!run) { ... }]. *)
Definition start_server (w : World) (name : string) : Run () :=
  emit (LogStep "Starting the development server...");;
  emit (ShellWhich "hugo");;
  match which_hugo w with
  | None =>
      emit (LogError (red "Hugo is not installed. You need to install Hugo to start this project!"));;
      emit (LogInfo ("After installing Hugo, run " +:+ blue (server_command name)
                     +:+ " to start the development server."));;
      outro_done w;;
      process_exit 1
  | Some _ => mret ()
  end;;
  emit (LogInfo ("> " +:+ blue (server_command name)));;
  outro_done w;;
  emit (ShellCd name);;
  emit (ShellExec "hugo server -O").

(** The post-init choice: [const run = await p.confirm(...)], the
    [if (!run) { ... }] that leaves with status 0, and the server start. *)
Definition post_init (w : World) (name : string) : Run () :=
  emit (Confirm "🚀 Do you want to start the development server now?");;
  (if negb (truthy (confirm_input w)) then
     emit (LogInfo ("Run " +:+ blue (server_command name)
                    +:+ " to start the development server."));;
     outro_done w;;
     process_exit 0
   else mret ());;
  start_server w name.

(** The callback of [git.removeRemote('origin', ...)]. *)
Definition removeRemote_callback (w : World) : Run () :=
  match removeRemote_result w with
  | Some err => emit (SpinnerStop spinnerInit (message err) (-1))
  | None => emit (SpinnerMessage spinnerInit (green "✔" +:+ " removed remote origin."))
  end.

(** The callback of the removal, if [here] is the point at which it runs. *)
Definition removeRemote_arrives (w : World) (here : arrival) : Run () :=
  if same_arrival (removeRemote_arrival w) here then removeRemote_callback w
  else mret ().

(** The callback of the removal, if it has not run before the callback of
    the history deletion. *)
Definition removeRemote_outstanding (w : World) : Run () :=
  if same_arrival (removeRemote_arrival w) BeforeHistoryDeletion then mret ()
  else removeRemote_callback w.

(** The continuation given to [.then] after the history deletion. *)
Definition first_commit (w : World) (name : string) : Run () :=
  emit (GitAdd "./*");;
  removeRemote_arrives w DuringAdd;;
  await_leaving (add_result w) (removeRemote_arrives w DuringCommit);;
  emit (GitCommit "first commit");;
  removeRemote_arrives w DuringCommit;;
  await (commit_result w);;
  emit (SpinnerStop spinnerInit
          (green "✔" +:+ " FixIt project " +:+ name +:+ " initialized!") 0);;
  emit (LogSuccess "🎉 Congratulations! You have created a new FixIt project.");;
  post_init w name.

(** The callback of [git.raw(['update-ref', '-d', 'HEAD'], ...)] and the
    [.then] chained on the same call: when the command fails the callback
    reports it, the continuation is skipped, and the rejection of the
    chained promise is given no handler. *)
Definition raw_callback_then (w : World) (name : string) : Run () :=
  match raw_result w with
  | Some err =>
      emit (SpinnerStop spinnerInit (message err) (-1));;
      removeRemote_outstanding w;;
      halt (Rejected err)
  | None =>
      emit (SpinnerMessage spinnerInit (green "✔" +:+ " removed history commits."));;
      first_commit w name
  end.

(** [// 2. initialize FixIt project]: both git commands are issued before
    either callback can run. *)
Definition initialize (w : World) (name : string) : Run () :=
  emit (SpinnerStart spinnerInit ("Initializing FixIt project " +:+ name +:+ "."));;
  emit (GitCwd name);;
  emit (SpinnerMessage spinnerInit "Removing remote origin.");;
  emit (GitRemoveRemote "origin");;
  emit (SpinnerMessage spinnerInit "Removing history commits.");;
  emit (GitRaw ["update-ref"; "-d"; "HEAD"]);;
  removeRemote_arrives w BeforeHistoryDeletion;;
  raw_callback_then w name.

(** The callback of [git.clone]. *)
Definition clone_callback (w : World) (name : string) (t : template) : Run () :=
  match clone_result w with
  | Some err => emit (SpinnerStop spinnerClone (message err) (-1))
  | None =>
      emit (SpinnerStop spinnerClone
              (green "✔" +:+ " Template downloaded from " +:+ cyan (repositories t)) 0);;
      initialize w name
  end.

(** [// 1. download template]: what createAction does once the prompt group
    has resolved to [answers]. *)
Definition download_template (w : World) (name : string) (t : template) : Run () :=
  emit (LogStep ("Initializing FixIt project " +:+ name +:+ ", please wait a moment..."));;
  emit (SpinnerStart spinnerClone
          ("Template downloading from " +:+ cyan (repositories t) +:+ "."));;
  emit (GitClean "f");;
  emit (GitClone (repositories t) name (cloneOptions t));;
  report_progress (clone_progress w);;
  clone_callback w name t.

Definition createAction (w : World) : Run () :=
  timer_start;;
  '(name, t) ← prompt_group w;
  download_template w name t.

(** *** checkAction of src/bin/actions.ts *)

Definition upgrade_commands (version : string) : string :=
  "You can use commands below to update FixIt theme to the latest version." +:+ LF
  +:+ gray "Hugo module:" +:+ LF
  +:+ "  " +:+ blue ("hugo mod get -u github.com/hugo-fixit/FixIt@" +:+ version) +:+ LF
  +:+ "  " +:+ blue "hugo mod tidy" +:+ LF
  +:+ gray "Git submodule:" +:+ LF
  +:+ "  " +:+ blue "git submodule update --remote --merge themes/FixIt".

Definition release_notes (r : ReleaseInfo) : string :=
  "Release Notes: " +:+ cyan (homeUrl r) +:+ LF +:+ LF
  +:+ join_lines (map gray (split_lines (changelog r))).

Definition token_hint : string :=
  "You can set GITHUB_TOKEN env to avoid GitHub API rate limit." +:+ LF
  +:+ "Run command " +:+ blue "fixit help check" +:+ " for more details." +:+ LF.

Definition checkAction (w : World) : Run () :=
  timer_start;;
  emit (SpinnerStart spinner "Checking the latest version of FixIt theme.");;
  emit (GetLatestRelease "hugo-fixit" "FixIt");;
  match fetch_result w with
  | inr r =>
      emit (LogInfo (release_notes r));;
      emit (SpinnerStop spinner
              (green "✔" +:+ " The latest version of FixIt theme is "
               +:+ blue (version r) +:+ ".") 0);;
      emit (LogStep (upgrade_commands (version r)));;
      outro_done w
  | inl error =>
      emit (LogError (red (message error)));;
      emit (SpinnerStop spinner
              (red "✘" +:+ " failed to check the latest version of FixIt theme.") (-1));;
      emit (LogStep token_hint);;
      process_exit 1
  end.

(** *** helpAction of src/bin/actions.ts *)

Definition helpAction (w : World) (command : string) : Run () :=
  timer_start;;
  (if decide (command = "create") then
     emit (Intro "Create a new FixIt project from a template based on Git submodule or Hugo module.");;
     emit (LogInfo ("Usage: " +:+ blue "fixit create <project-name>"))
   else if decide (command = "check") then
     emit (Intro "Check the latest version of FixIt theme.");;
     emit (LogInfo ("Usage: " +:+ blue "[GITHUB_TOKEN=xxx] fixit check"));;
     emit (LogStep
             (gray ("You can set GITHUB_TOKEN env to avoid GitHub API rate limit." +:+ LF)
              +:+ gray "Head to "
              +:+ cyan ("https://docs.github.com/en/github/authenticating-to-github/keeping-your-account-and-data-secure/creating-a-personal-access-token" +:+ LF)
              +:+ gray "for guidance on how to create a personal access token."))
   else if decide (command = "help") then
     emit (Intro "Display help for a specific command.");;
     emit (LogInfo ("Usage: " +:+ blue "fixit help <command>"))
   else
     emit (Intro ("Unknown help topic " +:+ red command +:+ "."));;
     emit (LogWarn ("Refer to " +:+ blue "fixit --help" +:+ " for supported commands.")));;
  outro_done w.

End Actions.

(** ** The older implementation, src/lib/actions.ts *)

Module Lib.
Section Actions.
Context `{Terminal}.

(** The [default] of an inquirer input prompt: an empty line stands for it. *)
Definition or_default (default line : string) : string :=
  if decide (line = "") then default else line.

(** The inquirer input prompt: it stays open until [validate] answers
    [true] for the line, or for the default when the line is empty.  The
    source gives the prompt no cancel handler, so when the user breaks off,
    the [.then] continuation never runs. *)
Fixpoint input_prompt (default : string) (inputs : list submission) : Run string :=
  match inputs with
  | [] => halt Pending
  | Abort :: _ => halt Interrupted
  | Submit line :: rest =>
      match validate_lib (or_default default line) with
      | inl msg => emit (ValidateError msg);; input_prompt default rest
      | inr true => mret (or_default default line)
      | inr false => input_prompt default rest
      end
  end.

(** [inquirer.prompt(promptList)]. *)
Definition prompt (w : World) : Run (string * template) :=
  emit (InquirerInput "Please input project name:" (or_empty (argv3 w)));;
  name ← input_prompt (or_empty (argv3 w)) (name_inputs w);
  emit (InquirerList "Please choose a template:"
          [("Hugo module", go); ("Git submodule", git)]);;
  match template_input w with
  | SelectCancel => halt Interrupted
  | Pick t => mret (name, t)
  end.

Fixpoint report_progress (evs : list SimpleGitProgressEvent) : Run () :=
  match evs with
  | [] => mret ()
  | ev :: rest =>
      emit (OraText spinnerClone (progress_message ev));;
      report_progress rest
  end.

Definition removeRemote_callback (w : World) : Run () :=
  match removeRemote_result w with
  | Some err =>
      emit (OraFail spinnerInit);;
      emit (ConsoleLog (red (Error_toString err)))
  | None => emit (OraText spinnerInit (green "[Success]" +:+ " removed remote origin."))
  end.

Definition removeRemote_arrives (w : World) (here : arrival) : Run () :=
  if same_arrival (removeRemote_arrival w) here then removeRemote_callback w
  else mret ().

Definition removeRemote_outstanding (w : World) : Run () :=
  if same_arrival (removeRemote_arrival w) BeforeHistoryDeletion then mret ()
  else removeRemote_callback w.

(** The continuation given to [.then] after the history deletion. *)
Definition first_commit (w : World) (name : string) : Run () :=
  emit (GitAdd "./*");;
  removeRemote_arrives w DuringAdd;;
  await_leaving (add_result w) (removeRemote_arrives w DuringCommit);;
  emit (GitCommit "first commit");;
  removeRemote_arrives w DuringCommit;;
  await (commit_result w);;
  emit (OraText spinnerInit
          (green "[Success]" +:+ " initialized FixIt project " +:+ name +:+ "."));;
  emit (OraSucceed spinnerInit);;
  emit (ConsoleLog ("🎉 Congratulations! You have created a new FixIt project." +:+ LF));;
  emit (ConsoleLog (blue (server_command name) +:+ LF +:+ LF
                    +:+ "Go! Enjoy it and Fix it! 🐛")).

Definition raw_callback_then (w : World) (name : string) : Run () :=
  match raw_result w with
  | Some err =>
      emit (OraFail spinnerInit);;
      emit (ConsoleLog (red (Error_toString err)));;
      removeRemote_outstanding w;;
      halt (Rejected err)
  | None =>
      emit (OraText spinnerInit (green "[Success]" +:+ " removed history commits."));;
      first_commit w name
  end.

Definition initialize (w : World) (name : string) : Run () :=
  emit (OraStart spinnerInit ("Initializing FixIt project " +:+ name));;
  emit (GitCwd name);;
  emit (OraText spinnerInit "Removing remote origin.");;
  emit (GitRemoveRemote "origin");;
  emit (OraText spinnerInit "Removing history commits.");;
  emit (GitRaw ["update-ref"; "-d"; "HEAD"]);;
  removeRemote_arrives w BeforeHistoryDeletion;;
  raw_callback_then w name.

Definition clone_callback (w : World) (name : string) (t : template) : Run () :=
  match clone_result w with
  | Some err =>
      emit (OraFail spinnerClone);;
      emit (ConsoleLog (red (Error_toString err)))
  | None =>
      emit (OraText spinnerClone
              (green "[Success]" +:+ " downloaded template from "
               +:+ cyan (repositories t) +:+ "."));;
      emit (OraSucceed spinnerClone);;
      initialize w name
  end.

(** The [.then] continuation of [inquirer.prompt(promptList)]. *)
Definition download_template (w : World) (name : string) (t : template) : Run () :=
  emit (ConsoleLog ("Initializing FixIt project " +:+ name +:+ ", please wait a moment."));;
  emit (OraStart spinnerClone
          ("Downloading template from " +:+ cyan (repositories t) +:+ "."));;
  emit (GitClean "f");;
  emit (GitClone (repositories t) name (cloneOptions t));;
  report_progress (clone_progress w);;
  clone_callback w name t.

Definition createAction (w : World) : Run () :=
  '(name, t) ← prompt w;
  download_template w name t.

Definition checkAction (w : World) : Run () :=
  emit (OraStart spinner "Checking the latest version of FixIt theme.");;
  emit (GetLatestRelease "hugo-fixit" "FixIt");;
  match fetch_result w with
  | inr r =>
      emit (OraText spinner
              (green "[Success]" +:+ " the latest version of FixIt theme is "
               +:+ blue (version r) +:+ "."));;
      emit (OraSucceed spinner);;
      emit (ConsoleLog ("Release Notes: " +:+ cyan (homeUrl r) +:+ LF +:+ LF
                        +:+ magenta (changelog r) +:+ LF));;
      emit (ConsoleLog (green "Note:" +:+ LF
                        +:+ "You can use commands below to update FixIt theme to the latest version."
                        +:+ LF));;
      emit (ConsoleLog ("Hugo module:" +:+ LF +:+ "  "
                        +:+ blue ("hugo mod get -u github.com/hugo-fixit/FixIt@"
                                  +:+ version r +:+ LF +:+ "  hugo mod tidy")));;
      emit (ConsoleLog ("Git submodule:" +:+ LF +:+ "  "
                        +:+ blue "git submodule update --remote --merge themes/FixIt"
                        +:+ LF))
  | inl error =>
      emit (OraText spinner
              (red "[Failed]" +:+ " failed to check the latest version of FixIt theme."));;
      emit (OraFail spinner);;
      emit (ConsoleLog (red (Error_toString error)));;
      emit (ConsoleLog (LF +:+ green "Note:" +:+ LF
                        +:+ "You can set GITHUB_TOKEN env to avoid GitHub API rate limit."
                        +:+ LF +:+ "Run command " +:+ blue "fixit help check"
                        +:+ " for more details." +:+ LF))
  end.

Definition helpAction (command : string) : Run () :=
  if decide (command = "create") then
    emit (ConsoleLog "Create a new FixIt project from a template based on Git submodule or Hugo module.");;
    emit (ConsoleLog ("Usage: " +:+ blue "fixit create <project-name>"))
  else if decide (command = "check") then
    emit (ConsoleLog "Check the latest version of FixIt theme.");;
    emit (ConsoleLog ("Usage: " +:+ blue "[GITHUB_TOKEN=xxx] fixit check"));;
    emit (ConsoleLog (LF +:+ green "Note:" +:+ LF
                      +:+ "You can set GITHUB_TOKEN env to avoid GitHub API rate limit."));;
    emit (ConsoleLog ("Head to "
                      +:+ cyan "https://docs.github.com/en/github/authenticating-to-github/keeping-your-account-and-data-secure/creating-a-personal-access-token"
                      +:+ LF +:+ "for guidance on how to create a personal access token."
                      +:+ LF))
  else if decide (command = "help") then
    emit (ConsoleLog "Display help for a specific command.");;
    emit (ConsoleLog ("Usage: " +:+ blue "fixit help <command>"))
  else
    emit (ConsoleLog ("Unknown help topic " +:+ red command +:+ "."));;
    emit (ConsoleLog ("Refer to " +:+ blue "fixit --help" +:+ " for supported commands.")).

End Actions.
End Lib.

(** ** Observations on traces *)


(** The calls that go through simple-git or shelljs. *)
Definition is_git_or_shell (e : event) : bool :=
  match e with
  | GitClean _ | GitClone _ _ _ | GitCwd _ | GitRemoveRemote _ | GitRaw _
  | GitAdd _ | GitCommit _ | ShellWhich _ | ShellCd _ | ShellExec _ => true
  | _ => false
  end.

(** The calls that go through simple-git. *)
Definition is_git (e : event) : bool :=
  match e with
  | GitClean _ | GitClone _ _ _ | GitCwd _ | GitRemoveRemote _ | GitRaw _
  | GitAdd _ | GitCommit _ => true
  | _ => false
  end.

Definition is_clone (e : event) : bool :=
  match e with
  | GitClone _ _ _ => true
  | _ => false
  end.

(** The steps that follow the clone in the create workflow: remote
    removal, history deletion, the baseline commit, the post-init prompt
    and what comes after it. *)
Definition is_later_step (e : event) : bool :=
  match e with
  | GitCwd _ | GitRemoveRemote _ | GitRaw _ | GitAdd _ | GitCommit _
  | Confirm _ | ShellWhich _ | ShellCd _ | ShellExec _ => true
  | _ => false
  end.

(** A subprocess is spawned by [shell.exec] only. *)
Definition is_spawn (e : event) : bool :=
  match e with
  | ShellExec _ => true
  | _ => false
  end.

(** The events in which the workflow itself writes to the terminal.
    ([shell.exec] hands the terminal to the process it starts.) *)
Definition is_output (e : event) : bool :=
  match e with
  | Text _ _ _ | ValidateError _ | Select _ _ | Confirm _
  | Cancel _ | Intro _ | Outro _ | LogStep _ | LogInfo _ | LogSuccess _
  | LogWarn _ | LogError _ | SpinnerStart _ _ | SpinnerMessage _ _
  | SpinnerStop _ _ _ | InquirerInput _ _ | InquirerList _ _ | ConsoleLog _
  | OraStart _ _ | OraText _ _ | OraFail _ | OraSucceed _ => true
  | _ => false
  end.

Definition is_log_step (e : event) : bool :=
  match e with
  | LogStep _ => true
  | _ => false
  end.

Definition count (p : event → bool) (t : list event) : nat :=
  length (List.filter p t).

Definition none (p : event → bool) (t : list event) : Prop :=
  List.filter p t = [].

Definition is_timer_stop (e : event) : bool :=
  match e with
  | TimerStop => true
  | _ => false
  end.

Definition is_fetch (e : event) : bool :=
  match e with
  | GetLatestRelease _ _ => true
  | _ => false
  end.

Definition is_exit (e : event) : bool :=
  match e with
  | ProcessExit _ => true
  | _ => false
  end.

(** ** Sample terminal and worlds *)

(** A terminal without colour support, where picocolors leaves strings as
    they are; the seconds are printed as the quotient they stand for. *)
Definition plain : Terminal := {|
  cyan := id; yellow := id; green := id; red := id;
  blue := id; gray := id; magenta := id;
  seconds := λ ms, pretty ms +:+ "/1000"
|}.

Definition sample_release : ReleaseInfo := {|
  version := "v1.2.3";
  changelog := "- fix A" +:+ LF +:+ "- fix B";
  homeUrl := "https://example.com/r"
|}.

Definition http_403 : Error := {| ename := "Error"; message := "HTTP 403" |}.

(** [fixit create my-blog]: the user first clears the field and submits,
    then submits the name, picks the submodule template, every git step
    succeeds, the user accepts the server start and hugo is installed. *)
Definition happy_world : World := {|
  argv3 := Some "my-blog";
  name_inputs := [Submit ""; Submit "my-blog"];
  template_input := Pick git;
  clone_progress :=
    [{| method := "clone"; stage := "receiving"; progress := 42; random3 := 1 |}];
  clone_result := None;
  removeRemote_result := None;
  removeRemote_arrival := BeforeHistoryDeletion;
  raw_result := None;
  add_result := None;
  commit_result := None;
  confirm_input := ConfirmValue true;
  which_hugo := Some "/usr/local/bin/hugo";
  fetch_result := inr sample_release;
  elapsed := 1234
|}.

Definition with_clone_result (r : option Error) (w : World) : World :=
  {| argv3 := argv3 w; name_inputs := name_inputs w;
     template_input := template_input w; clone_progress := clone_progress w;
     clone_result := r; removeRemote_result := removeRemote_result w;
     removeRemote_arrival := removeRemote_arrival w;
     raw_result := raw_result w; add_result := add_result w;
     commit_result := commit_result w; confirm_input := confirm_input w;
     which_hugo := which_hugo w; fetch_result := fetch_result w;
     elapsed := elapsed w |}.

Definition with_removeRemote_result (r : option Error) (w : World) : World :=
  {| argv3 := argv3 w; name_inputs := name_inputs w;
     template_input := template_input w; clone_progress := clone_progress w;
     clone_result := clone_result w; removeRemote_result := r;
     removeRemote_arrival := removeRemote_arrival w;
     raw_result := raw_result w; add_result := add_result w;
     commit_result := commit_result w; confirm_input := confirm_input w;
     which_hugo := which_hugo w; fetch_result := fetch_result w;
     elapsed := elapsed w |}.

Definition with_confirm_input (a : confirm_answer) (w : World) : World :=
  {| argv3 := argv3 w; name_inputs := name_inputs w;
     template_input := template_input w; clone_progress := clone_progress w;
     clone_result := clone_result w; removeRemote_result := removeRemote_result w;
     removeRemote_arrival := removeRemote_arrival w;
     raw_result := raw_result w; add_result := add_result w;
     commit_result := commit_result w; confirm_input := a;
     which_hugo := which_hugo w; fetch_result := fetch_result w;
     elapsed := elapsed w |}.

Definition with_which_hugo (p : option string) (w : World) : World :=
  {| argv3 := argv3 w; name_inputs := name_inputs w;
     template_input := template_input w; clone_progress := clone_progress w;
     clone_result := clone_result w; removeRemote_result := removeRemote_result w;
     removeRemote_arrival := removeRemote_arrival w;
     raw_result := raw_result w; add_result := add_result w;
     commit_result := commit_result w; confirm_input := confirm_input w;
     which_hugo := p; fetch_result := fetch_result w;
     elapsed := elapsed w |}.

Definition with_fetch_result (r : Error + ReleaseInfo) (w : World) : World :=
  {| argv3 := argv3 w; name_inputs := name_inputs w;
     template_input := template_input w; clone_progress := clone_progress w;
     clone_result := clone_result w; removeRemote_result := removeRemote_result w;
     removeRemote_arrival := removeRemote_arrival w;
     raw_result := raw_result w; add_result := add_result w;
     commit_result := commit_result w; confirm_input := confirm_input w;
     which_hugo := which_hugo w; fetch_result := r;
     elapsed := elapsed w |}.

Definition with_name_inputs (l : list submission) (w : World) : World :=
  {| argv3 := argv3 w; name_inputs := l;
     template_input := template_input w; clone_progress := clone_progress w;
     clone_result := clone_result w; removeRemote_result := removeRemote_result w;
     removeRemote_arrival := removeRemote_arrival w;
     raw_result := raw_result w; add_result := add_result w;
     commit_result := commit_result w; confirm_input := confirm_input w;
     which_hugo := which_hugo w; fetch_result := fetch_result w;
     elapsed := elapsed w |}.

(** ** Reading runs *)

(** The prompt group resolved to [{ name, template: t }]. *)
Definition answers `{Terminal} (w : World) (name : string) (t : template) : Prop :=
  (prompt_group w).2 = inr (name, t).

(** The run gets to the post-init choice: the prompts are answered and the
    clone, the history deletion and the baseline commit all succeed. *)
Definition reaches_post_init `{Terminal} (w : World) (name : string) (t : template) : Prop :=
  answers w name t ∧ clone_result w = None ∧ raw_result w = None
  ∧ add_result w = None ∧ commit_result w = None.

(** What [download_template] writes before the first progress report. *)
Definition clone_header `{Terminal} (name : string) (t : template) : list event :=
  [LogStep ("Initializing FixIt project " +:+ name +:+ ", please wait a moment...");
   SpinnerStart spinnerClone
     ("Template downloading from " +:+ cyan (repositories t) +:+ ".");
   GitClean "f";
   GitClone (repositories t) name (cloneOptions t)].

(** The history deletion, [git.raw(['update-ref', '-d', 'HEAD'])]. *)
Definition is_history_deletion (e : event) : bool :=
  match e with
  | GitRaw args => bool_decide (args = ["update-ref"; "-d"; "HEAD"])
  | _ => false
  end.

(** A failed clone: the sample run with the clone rejected. *)
Definition clone_error : Error :=
  {| ename := "Error"; message := "fatal: destination path 'my-blog' already exists" |}.

Definition clone_fails_world : World := with_clone_result (Some clone_error) happy_world.

(** A failed remote removal: the sample run with no remote to remove. *)
Definition remote_error : Error :=
  {| ename := "Error"; message := "error: No such remote: 'origin'" |}.

Definition remote_fails_world : World :=
  with_removeRemote_result (Some remote_error) happy_world.

(** A failed release fetch: the sample run with the request refused. *)
Definition fetch_fails_world : World := with_fetch_result (inl http_403) happy_world.

(** The line [p.outro] writes at the end of a workflow. *)
Definition done_line `{Terminal} (w : World) : event :=
  Outro ("Done in " +:+ seconds (elapsed w) +:+ "s").

(** What [Lib.download_template] writes before the first progress report. *)
Definition lib_header `{Terminal} (name : string) (t : template) : list event :=
  [ConsoleLog ("Initializing FixIt project " +:+ name +:+ ", please wait a moment.");
   OraStart spinnerClone ("Downloading template from " +:+ cyan (repositories t) +:+ ".");
   GitClean "f";
   GitClone (repositories t) name (cloneOptions t)].

(** The events the inquirer prompts can leave in the trace. *)
Definition is_lib_prompt_event (e : event) : bool :=
  match e with
  | InquirerInput _ _ | ValidateError _ | InquirerList _ _ => true
  | _ => false
  end.


(** The sample run with a project name of three spaces. *)
Definition blank_name_world : World := with_name_inputs [Submit "   "] happy_world.

(** The sample run with the server start declined, with hugo missing, and
    with the confirmation cancelled. *)
Definition declined_world : World := with_confirm_input (ConfirmValue false) happy_world.

Definition no_hugo_world : World := with_which_hugo None happy_world.

Definition cancelled_confirm_world : World := with_confirm_input ConfirmCancel happy_world.

(** The baseline commit and what follows it: staging, the commit, the
    post-init prompt and the server start. *)
Definition is_baseline_or_later (e : event) : bool :=
  match e with
  | GitAdd _ | GitCommit _ | Confirm _ | ShellWhich _ | ShellCd _ | ShellExec _ => true
  | _ => false
  end.

(** The baseline commit itself, [git.commit]. *)
Definition is_commit (e : event) : bool :=
  match e with
  | GitCommit _ => true
  | _ => false
  end.

(** The post-init prompt and the server start. *)
Definition is_post_init (e : event) : bool :=
  match e with
  | Confirm _ | ShellWhich _ | ShellCd _ | ShellExec _ => true
  | _ => false
  end.

(** The calls that move into a directory: [git.cwd] and [shell.cd]. *)
Definition is_cd (e : event) : bool :=
  match e with
  | GitCwd _ | ShellCd _ => true
  | _ => false
  end.

(** The git calls of a create run that gets through, in the order of the
    source. *)
Definition git_steps (name : string) (t : template) : list event :=
  [GitClean "f";
   GitClone (repositories t) name (cloneOptions t);
   GitCwd name;
   GitRemoveRemote "origin";
   GitRaw ["update-ref"; "-d"; "HEAD"];
   GitAdd "./*";
   GitCommit "first commit"].

(** The user submits the empty field [k] times, then goes on with [rest]. *)
Definition after_empty (k : nat) (rest : list submission) : list submission :=
  (replicate k (Submit "") ++ rest)%list.

Definition with_template_input (s : selection) (w : World) : World :=
  {| argv3 := argv3 w; name_inputs := name_inputs w;
     template_input := s; clone_progress := clone_progress w;
     clone_result := clone_result w; removeRemote_result := removeRemote_result w;
     removeRemote_arrival := removeRemote_arrival w;
     raw_result := raw_result w; add_result := add_result w;
     commit_result := commit_result w; confirm_input := confirm_input w;
     which_hugo := which_hugo w; fetch_result := fetch_result w;
     elapsed := elapsed w |}.

Definition with_raw_result (r : option Error) (w : World) : World :=
  {| argv3 := argv3 w; name_inputs := name_inputs w;
     template_input := template_input w; clone_progress := clone_progress w;
     clone_result := clone_result w; removeRemote_result := removeRemote_result w;
     removeRemote_arrival := removeRemote_arrival w;
     raw_result := r; add_result := add_result w;
     commit_result := commit_result w; confirm_input := confirm_input w;
     which_hugo := which_hugo w; fetch_result := fetch_result w;
     elapsed := elapsed w |}.

Definition with_add_result (r : option Error) (w : World) : World :=
  {| argv3 := argv3 w; name_inputs := name_inputs w;
     template_input := template_input w; clone_progress := clone_progress w;
     clone_result := clone_result w; removeRemote_result := removeRemote_result w;
     removeRemote_arrival := removeRemote_arrival w;
     raw_result := raw_result w; add_result := r;
     commit_result := commit_result w; confirm_input := confirm_input w;
     which_hugo := which_hugo w; fetch_result := fetch_result w;
     elapsed := elapsed w |}.

(** The sample run broken off at the name prompt after one empty
    submission, and broken off at the template select. *)
Definition name_cancelled_world : World :=
  with_name_inputs [Submit ""; Abort; Submit "my-blog"] happy_world.

Definition select_cancelled_world : World := with_template_input SelectCancel happy_world.

(** The sample run with the history deletion failing, and with the staging
    of the baseline commit failing. *)
Definition history_error : Error :=
  {| ename := "Error"; message := "error: could not delete reference HEAD" |}.

Definition raw_fails_world : World := with_raw_result (Some history_error) happy_world.

Definition add_error : Error :=
  {| ename := "Error"; message := "fatal: pathspec './*' did not match any files" |}.

Definition add_fails_world : World := with_add_result (Some add_error) happy_world.

(** The inquirer prompts resolved to [{ name, template: t }]. *)
Definition lib_answers `{Terminal} (w : World) (name : string) (t : template) : Prop :=
  (Lib.prompt w).2 = inr (name, t).


(** [fixit create] without a name on the command line: the user types the
    name, picks the submodule template, every git step succeeds, the user
    accepts the server start and hugo is installed. *)
Definition typed_name_world : World := {|
  argv3 := None;
  name_inputs := [Submit "my-blog"];
  template_input := Pick git;
  clone_progress := [];
  clone_result := None;
  removeRemote_result := None;
  removeRemote_arrival := BeforeHistoryDeletion;
  raw_result := None;
  add_result := None;
  commit_result := None;
  confirm_input := ConfirmValue true;
  which_hugo := Some "/usr/local/bin/hugo";
  fetch_result := inr sample_release;
  elapsed := 1234
|}.


(** [fixit create site], the user empties the field and submits, then
    submits another name. *)
Definition default_name_world : World :=
  with_name_inputs [Submit ""; Submit "my-blog"]
    {| argv3 := Some "site";
       name_inputs := [];
       template_input := Pick go;
       clone_progress := [];
       clone_result := None;
       removeRemote_result := None;
       removeRemote_arrival := BeforeHistoryDeletion;
       raw_result := None;
       add_result := None;
       commit_result := None;
       confirm_input := ConfirmValue false;
       which_hugo := None;
       fetch_result := inr sample_release;
       elapsed := 1234 |}.

Definition with_removeRemote_arrival (a : arrival) (w : World) : World :=
  {| argv3 := argv3 w; name_inputs := name_inputs w;
     template_input := template_input w; clone_progress := clone_progress w;
     clone_result := clone_result w; removeRemote_result := removeRemote_result w;
     removeRemote_arrival := a;
     raw_result := raw_result w; add_result := add_result w;
     commit_result := commit_result w; confirm_input := confirm_input w;
     which_hugo := which_hugo w; fetch_result := fetch_result w;
     elapsed := elapsed w |}.

(** The history deletion failing before the callback of the remote removal
    has run, and the staging failing while it is still outstanding. *)
Definition raw_fails_first_world : World :=
  with_removeRemote_arrival DuringAdd raw_fails_world.

Definition add_fails_first_world : World :=
  with_removeRemote_arrival DuringCommit add_fails_world.

(** The events a prompt group can leave in the trace. *)
Definition is_prompt_event (e : event) : bool :=
  match e with
  | Text _ _ _ | ValidateError _ | Select _ _ | Cancel _ | ProcessExit _ => true
  | _ => false
  end.

(** The last line written to the terminal. *)
Definition final_output (t : list event) : option event :=
  last (List.filter is_output t).

(** White space as [String.prototype.trim] sees it, within ASCII. *)
Definition is_space (c : Ascii.ascii) : bool :=
  let n := Ascii.nat_of_ascii c in
  bool_decide (n = 32 ∨ n = 9 ∨ n = 10 ∨ n = 11 ∨ n = 12 ∨ n = 13)%nat.

Fixpoint blank (s : string) : bool :=
  match s with
  | "" => true
  | String c rest => is_space c && blank rest
  end.

Fixpoint has_line_feed (s : string) : bool :=
  match s with
  | "" => false
  | String c rest => bool_decide (c = LF_char) || has_line_feed rest
  end.

(** ** Lemmas on the run monad and on traces *)

Lemma bind_value {A B : Type} (m : Run A) (f : A → Run B) (a : A) :
  m.2 = inr a → m ≫= f = ((m.1 ++ (f a).1)%list, (f a).2).
Proof. destruct m as [t [o|a']]; simpl; intros [= ->]. by destruct (f a). Qed.

Lemma bind_halt {A B : Type} (m : Run A) (f : A → Run B) (o : outcome) :
  m.2 = inl o → m ≫= f = (m.1, inl o).
Proof. destruct m as [t [o'|a]]; simpl; by intros [= ->]. Qed.

Lemma filter_none (p : event → bool) (l : list event) :
  Forall (λ e, p e = false) l → List.filter p l = [].
Proof.
  induction 1 as [|e l He _ IH]; [done|].
  simpl. by rewrite He.
Qed.

Lemma count_app (p : event → bool) (l1 l2 : list event) :
  count p (l1 ++ l2) = (count p l1 + count p l2)%nat.
Proof. unfold count. by rewrite List.filter_app, length_app. Qed.

Lemma count_none (p : event → bool) (l : list event) :
  Forall (λ e, p e = false) l → count p l = 0%nat.
Proof. intros Hl. unfold count. by rewrite filter_none. Qed.

Ltac unfold_detach :=
  unfold clone_callback, initialize, raw_callback_then, first_commit,
    await_leaving, removeRemote_arrives, removeRemote_outstanding,
    removeRemote_callback, await, emit, halt.

Ltac unfold_callbacks :=
  unfold clone_callback, initialize, raw_callback_then, first_commit,
    await_leaving, removeRemote_arrives, removeRemote_outstanding,
    removeRemote_callback, post_init, start_server, outro_done, timer_stop,
    process_exit, await, emit, halt.

Ltac run_cbn :=
  cbn [mbind mret Run_bind Run_ret fst snd app negb truthy same_arrival].

(** Every combination of git results, arrival of the removal's callback
    and post-init answers. *)
Ltac callback_cases w :=
  unfold_callbacks;
  destruct (clone_result w), (removeRemote_result w), (removeRemote_arrival w),
    (raw_result w), (add_result w), (commit_result w),
    (confirm_input w) as [[]|], (which_hugo w);
  run_cbn.

(** The same, following the run: a result is only looked at where the
    run gets to it. *)
Ltac case_field w :=
  match goal with
  | |- context [clone_result w] => destruct (clone_result w)
  | |- context [removeRemote_arrival w] => destruct (removeRemote_arrival w)
  | |- context [removeRemote_result w] => destruct (removeRemote_result w)
  | |- context [raw_result w] => destruct (raw_result w)
  | |- context [add_result w] => destruct (add_result w)
  | |- context [commit_result w] => destruct (commit_result w)
  | |- context [confirm_input w] => destruct (confirm_input w) as [[]|]
  | |- context [which_hugo w] => destruct (which_hugo w)
  end.


(** The part of a list of events in front of a given tail. *)
Ltac events_before l tl :=
  lazymatch l with
  | tl => constr:(@nil event)
  | ?e :: ?l' => let r := events_before l' tl in constr:(e :: r)
  end.

Section Phases.
Context `{Terminal}.

(** *** The prompts *)

Lemma text_prompt_trace (inputs : list submission) :
  Forall (λ e, e = ValidateError "project name is required!") (text_prompt inputs).1.
Proof.
  induction inputs as [|[val|] rest IH]; cbn [text_prompt]; try by constructor.
  unfold validate. destruct (decide (val = "")); [|by constructor].
  destruct (text_prompt rest) as [tr [o|r]]; simpl in *; by constructor.
Qed.

(** A name that leaves the text prompt was submitted and is not empty. *)
Lemma text_prompt_value (inputs : list submission) (name : string) :
  (text_prompt inputs).2 = inr (Some name) → Submit name ∈ inputs ∧ name ≠ "".
Proof.
  induction inputs as [|[val|] rest IH]; cbn [text_prompt]; [done| |done].
  unfold validate. destruct (decide (val = "")) as [->|Hne].
  - destruct (text_prompt rest) as [tr [o|r]]; simpl in *; [done|].
    intros Hr. destruct (IH Hr). split; [by right|done].
  - simpl. intros [= ->]. split; [by left|done].
Qed.

Lemma text_prompt_halts (inputs : list submission) (o : outcome) :
  (text_prompt inputs).2 = inl o → o = Pending.
Proof.
  induction inputs as [|[val|] rest IH]; cbn [text_prompt]; [by intros [= <-]| |done].
  unfold validate. destruct (decide (val = "")); [|done].
  destruct (text_prompt rest) as [tr [o'|r]]; simpl in *; [|done].
  intros [= ->]. by apply IH.
Qed.

Lemma prompt_group_trace (w : World) :
  Forall (λ e, is_prompt_event e = true) (prompt_group w).1.
Proof.
  unfold prompt_group.
  pose proof (text_prompt_trace (name_inputs w)) as Ht.
  destruct (text_prompt (name_inputs w)) as [tr [o|[name|]]]; simpl in *.
  - constructor; [done|]. eapply Forall_impl; [exact Ht|]. by intros e ->.
  - destruct (template_input w); simpl; constructor; try done;
      (apply Forall_app; split; [eapply Forall_impl; [exact Ht|]; by intros e ->|]);
      repeat constructor.
  - constructor; [done|].
    apply Forall_app; split; [eapply Forall_impl; [exact Ht|]; by intros e ->|].
    repeat constructor.
Qed.

(** The answers of the prompt group: a submitted, non-empty name and the
    picked template. *)
Lemma answers_inv (w : World) (name : string) (t : template) :
  answers w name t →
  Submit name ∈ name_inputs w ∧ name ≠ "" ∧ template_input w = Pick t.
Proof.
  unfold answers, prompt_group.
  pose proof (text_prompt_value (name_inputs w)) as Hv.
  destruct (text_prompt (name_inputs w)) as [tr [o|[n|]]]; simpl in *; [done| |done].
  destruct (template_input w) as [t'|]; simpl; [|done].
  intros [= -> ->]. destruct (Hv _ eq_refl). done.
Qed.

(** A prompt group that does not resolve waits for input or has left
    through [onCancel] with status 0. *)
Lemma prompt_group_halts (w : World) (o : outcome) :
  (prompt_group w).2 = inl o → o = Pending ∨ o = Exited 0.
Proof.
  unfold prompt_group.
  pose proof (text_prompt_halts (name_inputs w)) as Hh.
  destruct (text_prompt (name_inputs w)) as [tr [o'|[n|]]]; simpl in *.
  - intros [= <-]. left. by apply Hh.
  - destruct (template_input w); simpl; [done|]. intros [= <-]. by right.
  - intros [= <-]. by right.
Qed.

Lemma prompt_group_none (p : event → bool) (w : World) :
  (∀ e, is_prompt_event e = true → p e = false) →
  List.filter p (prompt_group w).1 = [].
Proof.
  intros Hp. apply filter_none.
  eapply Forall_impl; [apply prompt_group_trace|]. done.
Qed.

Lemma report_progress_eq (evs : list SimpleGitProgressEvent) :
  report_progress evs
  = (map (λ ev, SpinnerMessage spinnerClone (progress_message ev)) evs, inr ()).
Proof.
  induction evs as [|ev evs IH]; [done|].
  cbn [report_progress]. rewrite IH. done.
Qed.

Lemma progress_none (p : event → bool) (evs : list SimpleGitProgressEvent) :
  (∀ msg, p (SpinnerMessage spinnerClone msg) = false) →
  List.filter p (map (λ ev, SpinnerMessage spinnerClone (progress_message ev)) evs) = [].
Proof.
  intros Hp. induction evs as [|ev evs IH]; [done|].
  simpl. by rewrite Hp.
Qed.

Lemma prompt_group_no_exit (w : World) (name : string) (t : template) :
  answers w name t → List.filter is_exit (prompt_group w).1 = [].
Proof.
  unfold answers, prompt_group. intros Ha. apply filter_none.
  pose proof (text_prompt_trace (name_inputs w)) as Ht.
  destruct (text_prompt (name_inputs w)) as [tr [o|[n|]]]; simpl in *; [done| |done].
  destruct (template_input w); simpl in *; [|done].
  constructor; [done|]. apply Forall_app; split; [|by repeat constructor].
  eapply Forall_impl; [exact Ht|]. by intros e ->.
Qed.

(** *** createAction, phase by phase *)

Lemma createAction_answers (w : World) (name : string) (t : template) :
  answers w name t →
  createAction w
  = (TimerStart
       :: ((prompt_group w).1 ++ clone_header name t
           ++ map (λ ev, SpinnerMessage spinnerClone (progress_message ev)) (clone_progress w)
           ++ (clone_callback w name t).1)%list,
     (clone_callback w name t).2).
Proof.
  unfold answers, createAction, download_template, timer_start, emit. intros Hp.
  rewrite report_progress_eq.
  destruct (prompt_group w) as [tp rp]; simpl in Hp; subst rp.
  simpl. by destruct (clone_callback w name t).
Qed.

Lemma createAction_unanswered (w : World) (o : outcome) :
  (prompt_group w).2 = inl o →
  createAction w = (TimerStart :: (prompt_group w).1, inl o).
Proof.
  unfold createAction, timer_start, emit. intros Hp.
  destruct (prompt_group w) as [tp rp]; simpl in Hp; subst rp. done.
Qed.

(** Filtering the trace of an answered run, for a filter that lets no
    prompt event and no spinner message through. *)
Lemma filter_createAction (p : event → bool) (w : World) (name : string) (t : template) :
  answers w name t →
  (∀ e, is_prompt_event e = true → p e = false) →
  (∀ sp msg, p (SpinnerMessage sp msg) = false) →
  List.filter p (trace (createAction w))
  = (List.filter p (TimerStart :: clone_header name t)
     ++ List.filter p (clone_callback w name t).1)%list.
Proof.
  intros Ha Hp Hs. rewrite (createAction_answers _ _ _ Ha).
  unfold trace. cbn [fst].
  cbn [List.filter].
  rewrite !List.filter_app, prompt_group_none, progress_none by done.
  by destruct (p TimerStart).
Qed.

Lemma filter_createAction_unanswered (p : event → bool) (w : World) (o : outcome) :
  (prompt_group w).2 = inl o →
  (∀ e, is_prompt_event e = true → p e = false) →
  List.filter p (trace (createAction w)) = List.filter p [TimerStart].
Proof.
  intros Ho Hp. rewrite (createAction_unanswered _ _ Ho).
  unfold trace. cbn [fst List.filter].
  by rewrite prompt_group_none.
Qed.

(** The prompt group either resolves or halts. *)
Lemma prompt_group_cases (w : World) :
  (∃ name t, answers w name t) ∨ (∃ o, (prompt_group w).2 = inl o).
Proof.
  unfold answers. destruct (prompt_group w).2 as [o|[name t]] eqn:E.
  - right. by exists o.
  - left. by exists name, t.
Qed.

Lemma In_bind_l {A B : Type} (m : Run A) (f : A → Run B) (e : event) :
  In e m.1 → In e (m ≫= f).1.
Proof.
  destruct m as [tm [o|a]]; cbn [mbind Run_bind fst]; [done|].
  destruct (f a) as [tf rf]. cbn [fst]. rewrite in_app_iff. by left.
Qed.

Lemma initialize_eq (w : World) (name : string) :
  initialize w name
  = ([SpinnerStart spinnerInit ("Initializing FixIt project " +:+ name +:+ ".");
      GitCwd name;
      SpinnerMessage spinnerInit "Removing remote origin.";
      GitRemoveRemote "origin";
      SpinnerMessage spinnerInit "Removing history commits.";
      GitRaw ["update-ref"; "-d"; "HEAD"]]
     ++ (removeRemote_arrives w BeforeHistoryDeletion
           ≫= λ _, raw_callback_then w name).1,
     (removeRemote_arrives w BeforeHistoryDeletion
        ≫= λ _, raw_callback_then w name).2)%list.
Proof.
  unfold initialize, emit.
  destruct (removeRemote_arrives w BeforeHistoryDeletion
              ≫= λ _, raw_callback_then w name) as [tl rl].
  reflexivity.
Qed.

(** *** The post-init choice, branch by branch *)

Lemma post_init_declined (w : World) (name : string) :
  truthy (confirm_input w) = false →
  post_init w name
  = ([Confirm "🚀 Do you want to start the development server now?";
      LogInfo ("Run " +:+ blue (server_command name) +:+ " to start the development server.");
      TimerStop;
      Outro ("Done in " +:+ seconds (elapsed w) +:+ "s");
      ProcessExit 0], inl (Exited 0)).
Proof. intros Hr. unfold post_init. rewrite Hr. reflexivity. Qed.

Lemma post_init_no_hugo (w : World) (name : string) :
  truthy (confirm_input w) = true →
  which_hugo w = None →
  post_init w name
  = ([Confirm "🚀 Do you want to start the development server now?";
      LogStep "Starting the development server...";
      ShellWhich "hugo";
      LogError (red "Hugo is not installed. You need to install Hugo to start this project!");
      LogInfo ("After installing Hugo, run " +:+ blue (server_command name)
               +:+ " to start the development server.");
      TimerStop;
      Outro ("Done in " +:+ seconds (elapsed w) +:+ "s");
      ProcessExit 1], inl (Exited 1)).
Proof.
  intros Hr Hw. unfold post_init, start_server. rewrite Hr, Hw. reflexivity.
Qed.

Lemma post_init_hugo (w : World) (name path : string) :
  truthy (confirm_input w) = true →
  which_hugo w = Some path →
  post_init w name
  = ([Confirm "🚀 Do you want to start the development server now?";
      LogStep "Starting the development server...";
      ShellWhich "hugo";
      LogInfo ("> " +:+ blue (server_command name));
      TimerStop;
      Outro ("Done in " +:+ seconds (elapsed w) +:+ "s");
      ShellCd name;
      ShellExec "hugo server -O"], inr ()).
Proof.
  intros Hr Hw. unfold post_init, start_server. rewrite Hr, Hw. reflexivity.
Qed.

(** Between the clone and the post-init choice no process is spawned,
    [process.exit] is not called and the stopwatch is not stopped. *)
Lemma clone_callback_post_init (w : World) (name : string) (t : template) :
  clone_result w = None → raw_result w = None →
  add_result w = None → commit_result w = None →
  ∃ mid,
    clone_callback w name t = ((mid ++ (post_init w name).1)%list, (post_init w name).2)
    ∧ none is_spawn mid ∧ none is_exit mid ∧ none is_timer_stop mid.
Proof.
  intros Hc Hr Had Hco. unfold_detach. rewrite Hc, Hr, Had, Hco.
  destruct (post_init w name) as [tp rp].
  destruct (removeRemote_arrival w), (removeRemote_result w); run_cbn;
    lazymatch goal with
    | |- ∃ mid, (?l, _) = _ ∧ _ =>
        let pre := events_before l tp in exists pre
    end;
    (split; [reflexivity|]); unfold none;
    cbn [List.filter is_spawn is_exit is_timer_stop]; done.
Qed.

(** A run that reaches the post-init choice is what came before followed
    by the choice; before it no process is spawned, [process.exit] is not
    called and the stopwatch is not stopped. *)
Lemma createAction_post_init (w : World) (name : string) (t : template) :
  reaches_post_init w name t →
  ∃ pre,
    createAction w = ((pre ++ (post_init w name).1)%list, (post_init w name).2)
    ∧ none is_spawn pre ∧ none is_exit pre ∧ none is_timer_stop pre.
Proof.
  intros (Ha & Hc & Hr & Had & Hco).
  destruct (clone_callback_post_init w name t Hc Hr Had Hco)
    as (mid & Hcb & Hsp & Hex & Hst).
  exists (TimerStart :: (prompt_group w).1 ++ clone_header name t
          ++ map (λ ev, SpinnerMessage spinnerClone (progress_message ev)) (clone_progress w)
          ++ mid)%list.
  unfold none in *. split; [|split; [|split]].
  - rewrite (createAction_answers _ _ _ Ha), Hcb. cbn [fst snd].
    rewrite <- app_comm_cons, <- !app_assoc. reflexivity.
  - cbn [List.filter is_spawn].
    by rewrite !List.filter_app, prompt_group_none, progress_none, Hsp
      by (done || by intros []).
  - cbn [List.filter is_exit].
    by rewrite !List.filter_app, (prompt_group_no_exit _ _ _ Ha), progress_none, Hex.
  - cbn [List.filter is_timer_stop].
    by rewrite !List.filter_app, prompt_group_none, progress_none, Hst
      by (done || by intros []).
Qed.

End Phases.

(** ** The create workflow *)

Section Create.
Context `{Terminal}.

(** C1 (as the code has it): when the clone fails in a run whose prompts
    were answered, the error's message is the last thing the workflow
    writes, none of the later steps (remote removal, history deletion,
    baseline commit, post-init prompt, server start) is performed, and the
    callback returns without any call of [process.exit]: no exit status 1
    is requested. *)
Theorem clone_failure_surfaces_and_returns (w : World) (name : string) (t : template) (err : Error) :
  answers w name t →
  clone_result w = Some err →
  last (trace (createAction w)) = Some (SpinnerStop spinnerClone (message err) (-1))
  ∧ none is_later_step (trace (createAction w))
  ∧ none is_exit (trace (createAction w))
  ∧ result (createAction w) = Returned.
Proof.
  intros Ha Hc.
  assert (Hcb : clone_callback w name t
                = ([SpinnerStop spinnerClone (message err) (-1)], inr ())).
  { unfold clone_callback. by rewrite Hc. }
  repeat split.
  - rewrite (createAction_answers _ _ _ Ha), Hcb. unfold trace. cbn [fst].
    rewrite app_comm_cons, !app_assoc. apply last_snoc.
  - unfold none. rewrite (filter_createAction _ _ _ _ Ha), Hcb; [done| |done].
    by intros [].
  - unfold none. rewrite (createAction_answers _ _ _ Ha), Hcb.
    unfold trace. cbn [fst List.filter is_exit].
    rewrite !List.filter_app, (prompt_group_no_exit _ _ _ Ha), progress_none by done.
    done.
  - rewrite (createAction_answers _ _ _ Ha), Hcb. done.
Qed.

(** C2: in every run that reaches the detach step (prompts answered, clone
    succeeded), the history deletion [update-ref -d HEAD] is issued exactly
    once, directly after the remote removal was issued, whatever the remote
    removal's result; and a failure of the remote removal is reported with
    its message. *)
Theorem history_deletion_issued_regardless (w : World) (name : string) (t : template) :
  answers w name t →
  clone_result w = None →
  count is_history_deletion (trace (createAction w)) = 1%nat
  ∧ (∃ pre post,
        trace (createAction w)
        = (pre ++ [GitRemoveRemote "origin";
                   SpinnerMessage spinnerInit "Removing history commits.";
                   GitRaw ["update-ref"; "-d"; "HEAD"]] ++ post)%list)
  ∧ (∀ err, removeRemote_result w = Some err →
        In (SpinnerStop spinnerInit (message err) (-1)) (trace (createAction w))).
Proof.
  intros Ha Hc. split; [|split].
  - unfold count. rewrite (filter_createAction _ _ _ _ Ha); [|by intros []|done].
    unfold_callbacks. rewrite Hc.
    destruct (removeRemote_result w), (removeRemote_arrival w), (raw_result w),
      (add_result w), (commit_result w), (confirm_input w) as [[]|], (which_hugo w);
      run_cbn; cbn [List.filter is_history_deletion clone_header length app];
      reflexivity.
  - exists (TimerStart :: (prompt_group w).1 ++ clone_header name t
            ++ map (λ ev, SpinnerMessage spinnerClone (progress_message ev)) (clone_progress w)
            ++ [SpinnerStop spinnerClone
                  (green "✔" +:+ " Template downloaded from " +:+ cyan (repositories t)) 0;
                SpinnerStart spinnerInit ("Initializing FixIt project " +:+ name +:+ ".");
                GitCwd name;
                SpinnerMessage spinnerInit "Removing remote origin."])%list,
           (removeRemote_arrives w BeforeHistoryDeletion
              ≫= λ _, raw_callback_then w name).1.
    rewrite (createAction_answers _ _ _ Ha). unfold trace. cbn [fst].
    unfold clone_callback. rewrite Hc. unfold emit.
    rewrite initialize_eq. cbn [mbind Run_bind fst snd app].
    rewrite <- !app_assoc. reflexivity.
  - intros err He. rewrite (createAction_answers _ _ _ Ha). unfold trace. cbn [fst].
    right. rewrite !in_app_iff. do 3 right.
    unfold_callbacks. rewrite Hc, He.
    destruct (removeRemote_arrival w), (raw_result w), (add_result w),
      (commit_result w), (confirm_input w) as [[]|], (which_hugo w);
      run_cbn; cbn [In]; repeat (first [left; reflexivity | right]).
Qed.

(** C3: at the post-init choice, (a) a declined server start prints the
    manual command, spawns nothing and leaves with status 0; (b) an
    accepted start without hugo on the path prints the error and the
    manual instructions, spawns nothing and leaves with status 1; (c) an
    accepted start with hugo on the path changes into the project directory
    and then hands over to [hugo server -O], the only process spawned. *)
Theorem post_init_choice (w : World) (name : string) (t : template) :
  reaches_post_init w name t →
  (confirm_input w = ConfirmValue false →
     result (createAction w) = Exited 0
     ∧ none is_spawn (trace (createAction w))
     ∧ In (LogInfo ("Run " +:+ blue ("cd " +:+ name +:+ " && hugo server -O")
                    +:+ " to start the development server."))
          (trace (createAction w)))
  ∧ (confirm_input w = ConfirmValue true → which_hugo w = None →
     result (createAction w) = Exited 1
     ∧ none is_spawn (trace (createAction w))
     ∧ In (LogError (red "Hugo is not installed. You need to install Hugo to start this project!"))
          (trace (createAction w))
     ∧ In (LogInfo ("After installing Hugo, run "
                    +:+ blue ("cd " +:+ name +:+ " && hugo server -O")
                    +:+ " to start the development server."))
          (trace (createAction w)))
  ∧ (confirm_input w = ConfirmValue true →
     ∀ path, which_hugo w = Some path →
     result (createAction w) = Returned
     ∧ ∃ pre, trace (createAction w)
              = (pre ++ [ShellCd name; ShellExec "hugo server -O"])%list
              ∧ none is_spawn pre).
Proof.
  intros Hreach.
  destruct (createAction_post_init _ _ _ Hreach) as (pre & -> & Hsp & _ & _).
  unfold trace, result, none in *. cbn [fst snd].
  split; [|split].
  - intros Hrun. rewrite post_init_declined by (by rewrite Hrun).
    cbn [fst snd]. split; [done|]. split.
    + by rewrite List.filter_app, Hsp.
    + rewrite in_app_iff. right. right. by left.
  - intros Hrun Hw. rewrite post_init_no_hugo by (done || by rewrite Hrun).
    cbn [fst snd]. split; [done|]. split; [|split].
    + by rewrite List.filter_app, Hsp.
    + rewrite in_app_iff. right. do 3 right. by left.
    + rewrite in_app_iff. right. do 4 right. by left.
  - intros Hrun path Hw. rewrite (post_init_hugo _ _ path) by (done || by rewrite Hrun).
    cbn [fst snd]. split; [done|].
    eexists (pre ++ [_; _; _; _; _; _])%list. split.
    + rewrite <- app_assoc. reflexivity.
    + by rewrite List.filter_app, Hsp.
Qed.

(** C10: a cancelled confirmation (the cancel symbol, which is truthy)
    does not take the decline path.  The post-init step runs exactly as for
    an accepted start: the run does not leave with status 0, it looks for
    hugo, and with hugo present changes directory and starts the server,
    with hugo absent leaves with status 1. *)
Theorem cancelled_confirm_is_acceptance (w : World) (name : string) (t : template) :
  reaches_post_init w name t →
  confirm_input w = ConfirmCancel →
  post_init w name = post_init (with_confirm_input (ConfirmValue true) w) name
  ∧ result (createAction w) ≠ Exited 0
  ∧ In (ShellWhich "hugo") (trace (createAction w))
  ∧ (which_hugo w = None → result (createAction w) = Exited 1)
  ∧ (∀ path, which_hugo w = Some path →
       ∃ pre, trace (createAction w)
              = (pre ++ [ShellCd name; ShellExec "hugo server -O"])%list).
Proof.
  intros Hreach Hrun.
  destruct (createAction_post_init _ _ _ Hreach) as (pre & -> & _).
  unfold trace, result. cbn [fst snd].
  assert (Htr : truthy (confirm_input w) = true) by (by rewrite Hrun).
  split; [|split; [|split; [|split]]].
  - unfold post_init, start_server, outro_done, timer_stop. rewrite Hrun. reflexivity.
  - destruct (which_hugo w) as [path|] eqn:Hw.
    + by rewrite (post_init_hugo _ _ path).
    + by rewrite post_init_no_hugo.
  - rewrite in_app_iff. right.
    destruct (which_hugo w) as [path|] eqn:Hw.
    + rewrite (post_init_hugo _ _ path) by done. do 2 right. by left.
    + rewrite post_init_no_hugo by done. do 2 right. by left.
  - intros Hw. by rewrite post_init_no_hugo.
  - intros path Hw. rewrite (post_init_hugo _ _ path) by done. cbn [fst].
    eexists (pre ++ [_; _; _; _; _; _])%list.
    rewrite <- app_assoc. reflexivity.
Qed.

(** The callback of the clone never clones again. *)
Lemma clone_callback_no_clone (w : World) (name : string) (t : template) :
  List.filter is_clone (clone_callback w name t).1 = [].
Proof. callback_cases w; reflexivity. Qed.

(** The only clone of a run is the one issued for the answers of the
    prompt group, with the options built for the picked template. *)
Lemma clone_event_inv (w : World) (repo name : string) (opts : gmap string jsval) :
  In (GitClone repo name opts) (trace (createAction w)) →
  ∃ t, answers w name t ∧ repo = repositories t ∧ opts = cloneOptions t.
Proof.
  intros Hin.
  assert (Hf : In (GitClone repo name opts)
                 (List.filter is_clone (trace (createAction w)))).
  { apply List.filter_In. by split. }
  destruct (prompt_group_cases w) as [(n & t & Ha)|(o & Ho)].
  - rewrite (filter_createAction _ _ _ _ Ha), clone_callback_no_clone in Hf;
      [|by intros []|done].
    cbn [List.filter is_clone clone_header app In] in Hf.
    destruct Hf as [[= <- <- <-]|[]]. by exists t.
  - rewrite (filter_createAction_unanswered _ _ _ Ho) in Hf; [|by intros []].
    destruct Hf.
Qed.

(** C4 (as the code has it): the validation rejects exactly the empty
    string; a clone is only ever issued for a name that the user submitted
    and that is not empty, so as long as every submission is empty no clone
    is attempted. *)
Theorem empty_name_never_cloned (w : World) :
  validate "" = Some "project name is required!"
  ∧ (∀ val, val ≠ "" → validate val = None)
  ∧ (∀ repo name opts,
       In (GitClone repo name opts) (trace (createAction w)) →
       name ≠ "" ∧ Submit name ∈ name_inputs w)
  ∧ (Forall (λ s, s = Submit "" ∨ s = Abort) (name_inputs w) →
     count is_clone (trace (createAction w)) = 0%nat).
Proof.
  split; [done|]. split; [|split].
  - intros val Hv. unfold validate. by destruct (decide (val = "")).
  - intros repo name opts Hin.
    destruct (clone_event_inv _ _ _ _ Hin) as (t & Ha & _).
    destruct (answers_inv _ _ _ Ha) as (Hs & Hne & _). done.
  - intros Hall. unfold count.
    destruct (prompt_group_cases w) as [(n & t & Ha)|(o & Ho)].
    + destruct (answers_inv _ _ _ Ha) as (Hs & Hne & _).
      rewrite Forall_forall in Hall.
      destruct (Hall _ Hs) as [[= ->]|[=]]. done.
    + rewrite (filter_createAction_unanswered _ _ _ Ho); [done|by intros []].
Qed.

(** C5: whatever the project name, the clone issued by createAction carries
    the options of the picked template: depth 1, branch main and
    single-branch in both cases; for the submodule template also
    --recurse-submodules and --shallow-submodules (five options in all), for
    the module template neither of the two (three options in all). *)
Theorem clone_options_by_template (w : World) (repo name : string) (opts : gmap string jsval) :
  In (GitClone repo name opts) (trace (createAction w)) →
  ∃ t, template_input w = Pick t
    ∧ repo = repositories t
    ∧ opts !! "--depth" = Some (JNum 1)
    ∧ opts !! "--branch" = Some (JStr "main")
    ∧ opts !! "--single-branch" = Some JNull
    ∧ match t with
      | git => opts !! "--recurse-submodules" = Some JUndefined
               ∧ opts !! "--shallow-submodules" = Some JUndefined
               ∧ size opts = 5%nat
      | go => opts !! "--recurse-submodules" = None
              ∧ opts !! "--shallow-submodules" = None
              ∧ size opts = 3%nat
      end.
Proof.
  intros Hin.
  destruct (clone_event_inv _ _ _ _ Hin) as (t & Ha & -> & ->).
  destruct (answers_inv _ _ _ Ha) as (_ & _ & Ht).
  exists t. split; [done|]. split; [done|].
  destruct t; repeat split; vm_compute; reflexivity.
Qed.

End Create.

(** ** Lines of a changelog *)

Lemma append_assoc (a b c : string) : (a +:+ b) +:+ c = a +:+ b +:+ c.
Proof. induction a as [|ch a IH]; [done|]. change (String ch ((a +:+ b) +:+ c) = String ch (a +:+ b +:+ c)). by f_equal. Qed.

Lemma split_lines_cons (s : string) : ∃ l ls, split_lines s = l :: ls.
Proof.
  destruct s as [|ch rest]; [by eexists _, _|].
  cbn [split_lines]. destruct (decide (ch = LF_char)); [by eexists _, _|].
  destruct (split_lines rest); by eexists _, _.
Qed.

Lemma join_lines_cons (l l' : string) (ls : list string) :
  join_lines (l :: l' :: ls) = l +:+ LF +:+ join_lines (l' :: ls).
Proof. reflexivity. Qed.

(** Joining the pieces gives the text back: no line is lost or moved. *)
Lemma join_split_lines (s : string) : join_lines (split_lines s) = s.
Proof.
  induction s as [|ch rest IH]; [done|].
  cbn [split_lines].
  destruct (split_lines_cons rest) as (l & ls & Hs). rewrite Hs in *.
  destruct (decide (ch = LF_char)) as [->|Hne].
  - by rewrite join_lines_cons, IH.
  - destruct ls as [|l' ls].
    + cbn [join_lines] in *. by f_equal.
    + rewrite join_lines_cons in *. by rewrite <- IH.
Qed.

(** Each piece is a single line. *)
Lemma split_lines_single (s : string) :
  Forall (λ l, has_line_feed l = false) (split_lines s).
Proof.
  induction s as [|ch rest IH]; [by repeat constructor|].
  cbn [split_lines].
  destruct (decide (ch = LF_char)) as [->|Hne]; [by constructor|].
  destruct (split_lines_cons rest) as (l & ls & Hs). rewrite Hs in *.
  inversion IH as [|? ? Hl Hls]; subst.
  constructor; [|done]. cbn [has_line_feed].
  rewrite Hl. by rewrite bool_decide_eq_false_2.
Qed.

(** ** The check workflow *)

Section Check.
Context `{Terminal}.

Lemma checkAction_success (w : World) (r : ReleaseInfo) :
  fetch_result w = inr r →
  checkAction w
  = ([TimerStart;
      SpinnerStart spinner "Checking the latest version of FixIt theme.";
      GetLatestRelease "hugo-fixit" "FixIt";
      LogInfo (release_notes r);
      SpinnerStop spinner
        (green "✔" +:+ " The latest version of FixIt theme is "
         +:+ blue (version r) +:+ ".") 0;
      LogStep (upgrade_commands (version r));
      TimerStop;
      done_line w], inr ()).
Proof. intros Hf. unfold checkAction. rewrite Hf. reflexivity. Qed.

Lemma checkAction_failure (w : World) (err : Error) :
  fetch_result w = inl err →
  checkAction w
  = ([TimerStart;
      SpinnerStart spinner "Checking the latest version of FixIt theme.";
      GetLatestRelease "hugo-fixit" "FixIt";
      LogError (red (message err));
      SpinnerStop spinner
        (red "✘" +:+ " failed to check the latest version of FixIt theme.") (-1);
      LogStep token_hint;
      ProcessExit 1], inl (Exited 1)).
Proof. intros Hf. unfold checkAction. rewrite Hf. reflexivity. Qed.

(** C6: after a successful fetch of [{version, changelog, homeUrl}] the
    check workflow writes the release notes, the version and the upgrade
    commands, in this order.  The release notes hold the homepage URL and
    the changelog line by line: the lines are single lines whose join is the
    changelog, each styled on its own and joined in the same order.  The
    module command has the fetched version appended to it; the submodule
    command is the same string for every version. *)
Theorem check_success_rendering (w : World) (r : ReleaseInfo) :
  fetch_result w = inr r →
  List.filter is_output (trace (checkAction w))
  = [SpinnerStart spinner "Checking the latest version of FixIt theme.";
     LogInfo (release_notes r);
     SpinnerStop spinner
       (green "✔" +:+ " The latest version of FixIt theme is "
        +:+ blue (version r) +:+ ".") 0;
     LogStep (upgrade_commands (version r));
     done_line w]
  ∧ (∃ lines,
        join_lines lines = changelog r
        ∧ Forall (λ l, has_line_feed l = false) lines
        ∧ release_notes r
          = "Release Notes: " +:+ cyan (homeUrl r) +:+ LF +:+ LF
            +:+ join_lines (map gray lines))
  ∧ occurs_in (blue ("hugo mod get -u github.com/hugo-fixit/FixIt@" +:+ version r))
      (upgrade_commands (version r))
  ∧ (∀ v, ∃ pre,
        upgrade_commands v
        = pre +:+ blue "git submodule update --remote --merge themes/FixIt").
Proof.
  intros Hf. split; [|split; [|split]].
  - by rewrite (checkAction_success _ _ Hf).
  - exists (split_lines (changelog r)).
    split; [apply join_split_lines|]. split; [apply split_lines_single|done].
  - unfold occurs_in, upgrade_commands.
    exists ("You can use commands below to update FixIt theme to the latest version."
            +:+ LF +:+ gray "Hugo module:" +:+ LF +:+ "  "),
           (LF +:+ "  " +:+ blue "hugo mod tidy" +:+ LF
            +:+ gray "Git submodule:" +:+ LF
            +:+ "  " +:+ blue "git submodule update --remote --merge themes/FixIt").
    rewrite !append_assoc. reflexivity.
  - intros v. unfold upgrade_commands.
    exists ("You can use commands below to update FixIt theme to the latest version."
            +:+ LF +:+ gray "Hugo module:" +:+ LF
            +:+ "  " +:+ blue ("hugo mod get -u github.com/hugo-fixit/FixIt@" +:+ v) +:+ LF
            +:+ "  " +:+ blue "hugo mod tidy" +:+ LF
            +:+ gray "Git submodule:" +:+ LF +:+ "  ").
    rewrite !append_assoc. reflexivity.
Qed.

(** C7: after a failed fetch the check workflow writes the error's
    message, writes the hint to set GITHUB_TOKEN exactly once, has asked
    for the release exactly once (no retry), and leaves with status 1. *)
Theorem check_failure_exits (w : World) (err : Error) :
  fetch_result w = inl err →
  In (LogError (red (message err))) (trace (checkAction w))
  ∧ List.filter is_log_step (trace (checkAction w)) = [LogStep token_hint]
  ∧ occurs_in "set GITHUB_TOKEN env" token_hint
  ∧ count is_fetch (trace (checkAction w)) = 1%nat
  ∧ result (checkAction w) = Exited 1
  ∧ exit_status (result (checkAction w)) = Some 1.
Proof.
  intros Hf. rewrite (checkAction_failure _ _ Hf).
  unfold trace, result, count. cbn [fst snd].
  split; [|split; [|split; [|done]]].
  - do 3 right. by left.
  - done.
  - unfold occurs_in, token_hint.
    exists "You can ",
           (" to avoid GitHub API rate limit." +:+ LF
            +:+ "Run command " +:+ blue "fixit help check" +:+ " for more details." +:+ LF).
    reflexivity.
Qed.

End Check.

(** ** The stopwatch *)

Section Stopwatch.
Context `{Terminal}.

Lemma helpAction_stop (w : World) (command : string) :
  count is_timer_stop (trace (helpAction w command)) = 1%nat
  ∧ final_output (trace (helpAction w command)) = Some (done_line w).
Proof.
  unfold helpAction, outro_done, timer_stop, timer_start, emit.
  destruct (decide (command = "create")); [by split|].
  destruct (decide (command = "check")); [by split|].
  destruct (decide (command = "help")); by split.
Qed.

Lemma createAction_stops_at_most_once (w : World) :
  (count is_timer_stop (trace (createAction w)) ≤ 1)%nat.
Proof.
  unfold count.
  destruct (prompt_group_cases w) as [(n & t & Ha)|(o & Ho)].
  - rewrite (filter_createAction _ _ _ _ Ha); [|by intros []|done].
    callback_cases w;
      cbn [List.filter is_timer_stop clone_header length app]; lia.
  - rewrite (filter_createAction_unanswered _ _ _ Ho); [|by intros []].
    cbn [List.filter is_timer_stop length]. lia.
Qed.

(** C8 (as the code has it): the stopwatch is stopped at most once in a
    run.  On every help run, on the success path of check, and on every
    create run that reaches the post-init choice (declined, accepted
    without hugo, accepted with hugo) it is stopped exactly once and the
    duration is the last line the workflow writes. *)
Theorem stopwatch_reported_where_stopped (w : World) :
  (∀ command,
     count is_timer_stop (trace (helpAction w command)) = 1%nat
     ∧ final_output (trace (helpAction w command)) = Some (done_line w))
  ∧ (∀ r, fetch_result w = inr r →
     count is_timer_stop (trace (checkAction w)) = 1%nat
     ∧ final_output (trace (checkAction w)) = Some (done_line w))
  ∧ (∀ name t, reaches_post_init w name t →
     count is_timer_stop (trace (createAction w)) = 1%nat
     ∧ final_output (trace (createAction w)) = Some (done_line w))
  ∧ (count is_timer_stop (trace (checkAction w)) ≤ 1)%nat
  ∧ (count is_timer_stop (trace (createAction w)) ≤ 1)%nat.
Proof.
  split; [|split; [|split; [|split]]].
  - apply helpAction_stop.
  - intros r Hf. by rewrite (checkAction_success _ _ Hf).
  - intros name t Hreach.
    destruct (createAction_post_init _ _ _ Hreach) as (pre & -> & _ & _ & Hst).
    unfold trace, final_output, count, none in *. cbn [fst].
    rewrite !List.filter_app, Hst, last_app.
    destruct (truthy (confirm_input w)) eqn:Hrun.
    + destruct (which_hugo w) as [path|] eqn:Hw.
      * by rewrite (post_init_hugo _ _ path).
      * by rewrite post_init_no_hugo.
    + by rewrite post_init_declined.
  - destruct (fetch_result w) as [err|r] eqn:Hf.
    + rewrite (checkAction_failure _ _ Hf). unfold count, trace. cbn. lia.
    + rewrite (checkAction_success _ _ Hf). unfold count, trace. cbn. lia.
  - apply createAction_stops_at_most_once.
Qed.

End Stopwatch.

(** ** The two implementations of the create workflow *)

Ltac unfold_lib_callbacks :=
  unfold Lib.clone_callback, Lib.initialize, Lib.raw_callback_then,
    Lib.first_commit, await_leaving, Lib.removeRemote_arrives,
    Lib.removeRemote_outstanding, Lib.removeRemote_callback, await, emit, halt.

Section Implementations.
Context `{Terminal}.

Lemma or_default_empty (line : string) : Lib.or_default "" line = line.
Proof. unfold Lib.or_default. by destruct (decide (line = "")). Qed.

Lemma or_default_non_empty (default line : string) :
  default ≠ "" → Lib.or_default default line ≠ "".
Proof. unfold Lib.or_default. by destruct (decide (line = "")). Qed.

(** Without a name on the command line both name prompts let the same
    submissions through. *)
Lemma input_prompt_result (inputs : list submission) :
  (Lib.input_prompt "" inputs).2
  = match (text_prompt inputs).2 with
    | inl o => inl o
    | inr (Some name) => inr name
    | inr None => inl Interrupted
    end.
Proof.
  induction inputs as [|[val|] rest IH]; [done| |done].
  cbn [Lib.input_prompt text_prompt]. rewrite or_default_empty.
  unfold validate_lib, validate.
  destruct (decide (val = "")); [|done].
  destruct (Lib.input_prompt "" rest) as [tl rl], (text_prompt rest) as [tb rb].
  cbn [snd] in IH. subst rl.
  destruct rb as [o|[n|]]; reflexivity.
Qed.

(** With a name on the command line the first submission decides. *)
Lemma input_prompt_default (default line : string) (rest : list submission) :
  default ≠ "" →
  Lib.input_prompt default (Submit line :: rest) = ([], inr (Lib.or_default default line)).
Proof.
  intros Hd. cbn [Lib.input_prompt]. unfold validate_lib.
  by destruct (decide (Lib.or_default default line = "")) as [He|];
    [destruct (or_default_non_empty default line Hd He)|].
Qed.

Lemma input_prompt_trace (default : string) (inputs : list submission) :
  Forall (λ e, is_lib_prompt_event e = true) (Lib.input_prompt default inputs).1.
Proof.
  induction inputs as [|[val|] rest IH]; cbn [Lib.input_prompt]; try by constructor.
  unfold validate_lib. destruct (decide (Lib.or_default default val = "")); [|by constructor].
  destruct (Lib.input_prompt default rest) as [tr [o|r]]; simpl in *; by constructor.
Qed.

Lemma lib_prompt_trace (w : World) :
  Forall (λ e, is_lib_prompt_event e = true) (Lib.prompt w).1.
Proof.
  unfold Lib.prompt.
  pose proof (input_prompt_trace (or_empty (argv3 w)) (name_inputs w)) as Ht.
  destruct (Lib.input_prompt (or_empty (argv3 w)) (name_inputs w)) as [tr [o|name]];
    simpl in *.
  - by constructor.
  - destruct (template_input w); simpl; constructor; try done;
      (apply Forall_app; split; [done|]); by repeat constructor.
Qed.

(** Without a name on the command line the two prompts resolve alike. *)
Lemma lib_prompt_answers (w : World) (name : string) (t : template) :
  or_empty (argv3 w) = "" →
  answers w name t ↔ lib_answers w name t.
Proof.
  intros Hd. unfold answers, lib_answers, prompt_group, Lib.prompt. rewrite Hd.
  pose proof (input_prompt_result (name_inputs w)) as Hr.
  destruct (Lib.input_prompt "" (name_inputs w)) as [tl rl],
    (text_prompt (name_inputs w)) as [tb [o|[n|]]];
    cbn [snd] in Hr; subst rl; cbn [mbind Run_bind emit halt fst snd onCancel];
    [done| |done].
  destruct (template_input w); cbn [mbind Run_bind emit halt fst snd mret Run_ret];
    [done|]. unfold onCancel, process_exit, emit, halt.
  cbn [mbind Run_bind fst snd]. done.
Qed.



Lemma lib_report_progress_eq (evs : list SimpleGitProgressEvent) :
  Lib.report_progress evs
  = (map (λ ev, OraText spinnerClone (progress_message ev)) evs, inr ()).
Proof.
  induction evs as [|ev evs IH]; [done|].
  cbn [Lib.report_progress]. rewrite IH. done.
Qed.

Lemma lib_progress_none (p : event → bool) (evs : list SimpleGitProgressEvent) :
  (∀ sp msg, p (OraText sp msg) = false) →
  List.filter p (map (λ ev, OraText spinnerClone (progress_message ev)) evs) = [].
Proof.
  intros Hp. induction evs as [|ev evs IH]; [done|].
  simpl. by rewrite Hp.
Qed.

Lemma lib_createAction_answers (w : World) (name : string) (t : template) :
  lib_answers w name t →
  Lib.createAction w
  = (((Lib.prompt w).1 ++ lib_header name t
      ++ map (λ ev, OraText spinnerClone (progress_message ev)) (clone_progress w)
      ++ (Lib.clone_callback w name t).1)%list,
     (Lib.clone_callback w name t).2).
Proof.
  unfold lib_answers. intros Hl.
  unfold Lib.createAction, Lib.download_template, emit.
  rewrite lib_report_progress_eq.
  destruct (Lib.prompt w) as [tp rp]; simpl in Hl; subst rp.
  simpl. by destruct (Lib.clone_callback w name t).
Qed.

Lemma filter_lib_createAction (p : event → bool) (w : World) (name : string) (t : template) :
  lib_answers w name t →
  (∀ e, is_lib_prompt_event e = true → p e = false) →
  (∀ sp msg, p (OraText sp msg) = false) →
  List.filter p (trace (Lib.createAction w))
  = (List.filter p (lib_header name t)
     ++ List.filter p (Lib.clone_callback w name t).1)%list.
Proof.
  intros Ha Hp Ho. rewrite (lib_createAction_answers _ _ _ Ha).
  unfold trace. cbn [fst].
  rewrite !List.filter_app, lib_progress_none by done.
  rewrite (filter_none p (Lib.prompt w).1); [done|].
  eapply Forall_impl; [apply lib_prompt_trace|]. done.
Qed.




End Implementations.

(** ** The prompts, further *)

Section Prompts.
Context `{Terminal}.

(** Each empty submission is answered with the validation message and
    leaves the prompt open. *)
Lemma text_prompt_after_empty (k : nat) (rest : list submission) :
  text_prompt (after_empty k rest)
  = ((replicate k (ValidateError "project name is required!") ++ (text_prompt rest).1)%list,
     (text_prompt rest).2).
Proof.
  unfold after_empty. induction k as [|k IH].
  { cbn [replicate app]. by destruct (text_prompt rest). }
  cbn [replicate app text_prompt]. unfold validate.
  destruct (decide ("" = "")); [|done].
  rewrite IH. reflexivity.
Qed.

Lemma text_prompt_first_name (inputs : list submission) (name : string) :
  (text_prompt inputs).2 = inr (Some name) →
  ∃ k rest, inputs = after_empty k (Submit name :: rest) ∧ name ≠ "".
Proof.
  induction inputs as [|[val|] tail IH]; cbn [text_prompt]; [done| |done].
  unfold validate. destruct (decide (val = "")) as [->|Hne].
  - destruct (text_prompt tail) as [tr r]. cbn [mbind Run_bind emit snd] in *.
    intros Hr. destruct (IH Hr) as (k & rest & -> & Hn).
    by exists (S k), rest.
  - cbn [snd]. intros [= ->]. by exists 0%nat, tail.
Qed.

(** X1: the name the create workflow works with is the first submission
    that is not empty, the user not having cancelled before it, together
    with the picked template. *)
Theorem name_is_first_non_empty_submission (w : World) (name : string) (t : template) :
  answers w name t
  ↔ ∃ k rest, name_inputs w = after_empty k (Submit name :: rest)
              ∧ name ≠ "" ∧ template_input w = Pick t.
Proof.
  split.
  - intros Ha. destruct (answers_inv _ _ _ Ha) as (_ & _ & Ht).
    unfold answers, prompt_group in Ha.
    destruct (text_prompt (name_inputs w)) as [tr [o|[n|]]] eqn:Hp;
      cbn [mbind Run_bind emit snd] in Ha; [done| |done].
    rewrite Ht in Ha. cbn [mbind Run_bind emit snd mret Run_ret] in Ha.
    injection Ha as ->.
    destruct (text_prompt_first_name (name_inputs w) name) as (k & rest & Hk & Hn);
      [by rewrite Hp|].
    by exists k, rest.
  - intros (k & rest & Hi & Hn & Ht).
    unfold answers, prompt_group. rewrite Hi, Ht, text_prompt_after_empty.
    cbn [text_prompt]. unfold validate. destruct (decide (name = "")); [done|].
    reflexivity.
Qed.

(** X2: a user who submits the empty field [k] times before a name is told
    [k] times that the name is required, then asked for the template; the
    prompt group writes nothing else. *)
Theorem empty_submissions_are_reprompted
    (w : World) (k : nat) (name : string) (rest : list submission) (t : template) :
  name_inputs w = after_empty k (Submit name :: rest) →
  name ≠ "" →
  template_input w = Pick t →
  prompt_group w
  = (Text "Please input project name:" "project name" (or_empty (argv3 w))
       :: (replicate k (ValidateError "project name is required!")
           ++ [Select "Please choose a template:"
                 [(go, "Hugo module based"); (git, "Git submodule based")]])%list,
     inr (name, t)).
Proof.
  intros Hi Hn Ht. unfold prompt_group. rewrite Hi, Ht, text_prompt_after_empty.
  cbn [text_prompt]. unfold validate. destruct (decide (name = "")); [done|].
  cbn [mbind Run_bind emit fst snd mret Run_ret app].
  rewrite app_nil_r. reflexivity.
Qed.

(** X3: when the user cancels at the name prompt (after any number of
    empty submissions) or at the template select, the workflow writes
    "Operation cancelled.", calls [process.exit(0)] as its last act, and has
    made no call to git or to the shell (clone, git sub-operation,
    [shell.which], [shell.cd], [shell.exec]) nor stopped the stopwatch. *)
Theorem cancelled_prompt_exits_cleanly (w : World) :
  (∃ k rest, name_inputs w = after_empty k (Abort :: rest))
  ∨ (∃ k name rest, name_inputs w = after_empty k (Submit name :: rest)
                    ∧ name ≠ "" ∧ template_input w = SelectCancel) →
  result (createAction w) = Exited 0
  ∧ last (trace (createAction w)) = Some (ProcessExit 0)
  ∧ In (Cancel "Operation cancelled.") (trace (createAction w))
  ∧ none is_git_or_shell (trace (createAction w))
  ∧ none is_timer_stop (trace (createAction w)).
Proof.
  intros Hc.
  assert (Hp : ∃ tp, prompt_group w
                     = ((tp ++ [Cancel "Operation cancelled."; ProcessExit 0])%list,
                        inl (Exited 0))).
  { unfold prompt_group, onCancel, process_exit.
    destruct Hc as [(k & rest & Hi)|(k & name & rest & Hi & Hn & Ht)];
      rewrite Hi, text_prompt_after_empty; cbn [text_prompt].
    - eexists (Text _ _ _ :: replicate k _)%list.
      cbn [mbind Run_bind emit halt fst snd mret Run_ret app].
      by rewrite app_nil_r.
    - unfold validate. destruct (decide (name = "")); [done|]. rewrite Ht.
      eexists (Text _ _ _ :: replicate k _ ++ [Select _ _])%list.
      cbn [mbind Run_bind emit halt fst snd mret Run_ret app].
      rewrite app_nil_r, <- app_assoc. reflexivity. }
  destruct Hp as (tp & Hp).
  assert (Ho : (prompt_group w).2 = inl (Exited 0)) by (by rewrite Hp).
  unfold none.
  rewrite !(filter_createAction_unanswered _ _ _ Ho) by (by intros []).
  rewrite (createAction_unanswered _ _ Ho), Hp. unfold trace, result. cbn [fst snd].
  split; [done|]. split; [|split; [|done]].
  - rewrite app_comm_cons, last_app. reflexivity.
  - right. rewrite in_app_iff. right. by left.
Qed.

(** X4: the inquirer prompt of src/lib/actions.ts treats the name given on
    the command line as its default.  With such a name the first submission
    decides: an empty line stands for that name, any other line is the name.
    Without one the name is the first submission that is not empty, as in
    src/bin/actions.ts.  The two prompts therefore part ways when a name is
    given on the command line and the user submits nothing: the older
    implementation goes on with the command-line name, the newer one asks
    again and goes on with the next name submitted. *)
Theorem lib_name_is_first_line_or_default (w : World) (t : template) :
  (∀ name,
     lib_answers w name t
     ↔ template_input w = Pick t
       ∧ ((or_empty (argv3 w) ≠ ""
           ∧ ∃ line rest, name_inputs w = Submit line :: rest
                          ∧ name = Lib.or_default (or_empty (argv3 w)) line)
          ∨ (or_empty (argv3 w) = ""
             ∧ ∃ k rest, name_inputs w = after_empty k (Submit name :: rest)
                         ∧ name ≠ "")))
  ∧ (∀ next rest,
       or_empty (argv3 w) ≠ "" →
       name_inputs w = Submit "" :: Submit next :: rest →
       next ≠ "" →
       template_input w = Pick t →
       lib_answers w (or_empty (argv3 w)) t ∧ answers w next t).
Proof.
  split.
  - intros name. destruct (decide (or_empty (argv3 w) = "")) as [Hd|Hd].
    + rewrite <- (lib_prompt_answers _ _ _ Hd), name_is_first_non_empty_submission.
      split.
      * intros (k & rest & Hi & Hn & Ht). split; [done|]. right. split; [done|].
        by exists k, rest.
      * intros (Ht & [(Hd' & _)|(_ & k & rest & Hi & Hn)]); [done|].
        by exists k, rest.
    + unfold lib_answers, Lib.prompt. split.
      * destruct (name_inputs w) as [|[line|] rest] eqn:Hi;
          [cbn [Lib.input_prompt mbind Run_bind emit halt fst snd]; done|
          |cbn [Lib.input_prompt mbind Run_bind emit halt fst snd]; done].
        rewrite (input_prompt_default _ _ _ Hd).
        destruct (template_input w) as [t'|];
          cbn [mbind Run_bind emit halt fst snd mret Run_ret]; [|done].
        intros [= <- <-]. split; [done|]. left. split; [done|].
        by exists line, rest.
      * intros (Ht & [(_ & line & rest & Hi & ->)|(Hd' & _)]); [|done].
        rewrite Hi, Ht, (input_prompt_default _ _ _ Hd). reflexivity.
  - intros next rest Hd Hi Hn Ht. split.
    + unfold lib_answers, Lib.prompt.
      rewrite Hi, Ht, (input_prompt_default _ _ _ Hd).
      unfold Lib.or_default. by destruct (decide ("" = "")).
    + apply name_is_first_non_empty_submission.
      by exists 1%nat, rest.
Qed.

End Prompts.

(** ** The create workflow, further *)

Section CreatePaths.
Context `{Terminal}.

(** How the callback of the clone ends, read off the results it meets. *)
Lemma clone_callback_result (w : World) (name : string) (t : template) :
  (clone_callback w name t).2
  = match clone_result w with
    | Some _ => inr ()
    | None =>
        match raw_result w with
        | Some err => inl (Rejected err)
        | None =>
            match add_result w with
            | Some err => inl (Rejected err)
            | None =>
                match commit_result w with
                | Some err => inl (Rejected err)
                | None =>
                    if truthy (confirm_input w) then
                      match which_hugo w with
                      | None => inl (Exited 1)
                      | Some _ => inr ()
                      end
                    else inl (Exited 0)
                end
            end
        end
    end.
Proof. callback_cases w; reflexivity. Qed.

Lemma result_createAction (w : World) (name : string) (t : template) :
  answers w name t →
  result (createAction w)
  = match (clone_callback w name t).2 with inl o => o | inr _ => Returned end.
Proof. intros Ha. by rewrite (createAction_answers _ _ _ Ha). Qed.

(** X5: when the history deletion fails in a run that got through the
    clone, the workflow writes its message and goes no further: nothing of
    the baseline commit or of the post-init choice is attempted and the
    stopwatch is not stopped, whenever the callback of the remote removal
    runs.  The run is left with the rejection of the promise the
    continuation was chained on, which the source gives no handler. *)
Theorem history_deletion_failure_stops_the_run
    (w : World) (name : string) (t : template) (err : Error) :
  answers w name t →
  clone_result w = None →
  raw_result w = Some err →
  In (SpinnerStop spinnerInit (message err) (-1)) (trace (createAction w))
  ∧ none is_baseline_or_later (trace (createAction w))
  ∧ none is_timer_stop (trace (createAction w))
  ∧ result (createAction w) = Rejected err.
Proof.
  intros Ha Hc Hr. unfold none. split; [|split; [|split]].
  - rewrite (createAction_answers _ _ _ Ha). unfold trace. cbn [fst].
    right. rewrite !in_app_iff. do 3 right.
    unfold_callbacks. rewrite Hc, Hr.
    destruct (removeRemote_arrival w), (removeRemote_result w); run_cbn; cbn [In];
      repeat (first [left; reflexivity | right]).
  - rewrite (filter_createAction _ _ _ _ Ha); [|by intros []|done].
    unfold_callbacks. rewrite Hc, Hr.
    destruct (removeRemote_arrival w), (removeRemote_result w); run_cbn;
      cbn [List.filter is_baseline_or_later clone_header app]; reflexivity.
  - rewrite (filter_createAction _ _ _ _ Ha); [|by intros []|done].
    unfold_callbacks. rewrite Hc, Hr.
    destruct (removeRemote_arrival w), (removeRemote_result w); run_cbn;
      cbn [List.filter is_timer_stop clone_header app]; reflexivity.
  - rewrite (result_createAction _ _ _ Ha), clone_callback_result, Hc, Hr. done.
Qed.

(** X6: the baseline commit is awaited step by step.  When staging fails,
    [git.add] has been issued and no commit is; when the commit fails,
    [git.commit] has been issued.  Either way the post-init prompt is never
    shown and the run is left with the rejection, whenever the callback of
    the remote removal runs. *)
Theorem baseline_commit_failure_stops_the_run
    (w : World) (name : string) (t : template) (err : Error) :
  answers w name t →
  clone_result w = None →
  raw_result w = None →
  (add_result w = Some err →
     In (GitAdd "./*") (trace (createAction w))
     ∧ none is_commit (trace (createAction w))
     ∧ none is_post_init (trace (createAction w))
     ∧ result (createAction w) = Rejected err)
  ∧ (add_result w = None → commit_result w = Some err →
     In (GitCommit "first commit") (trace (createAction w))
     ∧ none is_post_init (trace (createAction w))
     ∧ result (createAction w) = Rejected err).
Proof.
  intros Ha Hc Hr. unfold none. split.
  - intros Had. split; [|split; [|split]].
    + rewrite (createAction_answers _ _ _ Ha). unfold trace. cbn [fst].
      right. rewrite !in_app_iff. do 3 right.
      unfold_callbacks. rewrite Hc, Hr, Had.
      destruct (removeRemote_arrival w), (removeRemote_result w); run_cbn; cbn [In];
        repeat (first [left; reflexivity | right]).
    + rewrite (filter_createAction _ _ _ _ Ha); [|by intros []|done].
      unfold_callbacks. rewrite Hc, Hr, Had.
      destruct (removeRemote_arrival w), (removeRemote_result w); run_cbn;
        cbn [List.filter is_commit clone_header app]; reflexivity.
    + rewrite (filter_createAction _ _ _ _ Ha); [|by intros []|done].
      unfold_callbacks. rewrite Hc, Hr, Had.
      destruct (removeRemote_arrival w), (removeRemote_result w); run_cbn;
        cbn [List.filter is_post_init clone_header app]; reflexivity.
    + rewrite (result_createAction _ _ _ Ha), clone_callback_result, Hc, Hr, Had. done.
  - intros Had Hco. split; [|split].
    + rewrite (createAction_answers _ _ _ Ha). unfold trace. cbn [fst].
      right. rewrite !in_app_iff. do 3 right.
      unfold_callbacks. rewrite Hc, Hr, Had, Hco.
      destruct (removeRemote_arrival w), (removeRemote_result w); run_cbn; cbn [In];
        repeat (first [left; reflexivity | right]).
    + rewrite (filter_createAction _ _ _ _ Ha); [|by intros []|done].
      unfold_callbacks. rewrite Hc, Hr, Had, Hco.
      destruct (removeRemote_arrival w), (removeRemote_result w); run_cbn;
        cbn [List.filter is_post_init clone_header app]; reflexivity.
    + rewrite (result_createAction _ _ _ Ha), clone_callback_result,
        Hc, Hr, Had, Hco. done.
Qed.

(** X7: the git calls of a run are always an initial segment of the same
    seven calls, in the same order: two (clean, clone) when the clone fails,
    five (up to the history deletion) when the history deletion fails, six
    when staging fails, all seven otherwise.  Neither the result of the
    remote removal nor anything after the commit changes them. *)
Theorem git_calls_are_an_initial_segment (w : World) (name : string) (t : template) :
  answers w name t →
  List.filter is_git (trace (createAction w))
  = take (match clone_result w, raw_result w, add_result w with
          | Some _, _, _ => 2
          | None, Some _, _ => 5
          | None, None, Some _ => 6
          | None, None, None => 7
          end)%nat (git_steps name t).
Proof.
  intros Ha. rewrite (filter_createAction _ _ _ _ Ha); [|by intros []|done].
  callback_cases w;
    cbn [List.filter is_git clone_header app take git_steps]; reflexivity.
Qed.

End CreatePaths.

Section CreateOutcomes.
Context `{Terminal}.

(** X8: the remote removal is best effort.  Whatever result it is given,
    the run ends the same way and makes the same calls to git and to the
    shell ([shell.which], [shell.cd] and [shell.exec] included), in the same
    order. *)
Theorem remote_removal_result_is_ignored (w : World) (r : option Error) :
  result (createAction (with_removeRemote_result r w)) = result (createAction w)
  ∧ List.filter is_git_or_shell (trace (createAction (with_removeRemote_result r w)))
    = List.filter is_git_or_shell (trace (createAction w)).
Proof.
  destruct (prompt_group_cases w) as [(n & t & Ha)|(o & Ho)].
  - assert (Ha' : answers (with_removeRemote_result r w) n t) by exact Ha.
    split.
    + rewrite (result_createAction _ _ _ Ha), (result_createAction _ _ _ Ha').
      rewrite !clone_callback_result. reflexivity.
    + rewrite (filter_createAction _ _ _ _ Ha), (filter_createAction _ _ _ _ Ha');
        try done; try by intros [].
      f_equal. unfold_callbacks.
      cbn [with_removeRemote_result clone_result removeRemote_result
             removeRemote_arrival raw_result add_result commit_result
             confirm_input which_hugo elapsed].
      repeat (run_cbn; case_field w); destruct r;
        run_cbn; cbn [List.filter is_git_or_shell app]; reflexivity.
  - assert (Ho' : (prompt_group (with_removeRemote_result r w)).2 = inl o) by exact Ho.
    split.
    + by rewrite (createAction_unanswered _ _ Ho), (createAction_unanswered _ _ Ho').
    + by rewrite (filter_createAction_unanswered _ _ _ Ho),
        (filter_createAction_unanswered _ _ _ Ho') by (by intros []).
Qed.

(** X9: the create workflow leaves through [process.exit] in three
    situations only.  Status 0: the user cancelled a prompt of the group, or
    the run reached the post-init choice and the answer was falsy.  Status
    1: the run reached the post-init choice, the answer was truthy and hugo
    was not found.  No other status is ever passed. *)
Theorem create_exit_statuses (w : World) (code : Z) :
  result (createAction w) = Exited code →
  (code = 0
   ∧ ((prompt_group w).2 = inl (Exited 0)
      ∨ ∃ name t, reaches_post_init w name t ∧ truthy (confirm_input w) = false))
  ∨ (code = 1
     ∧ ∃ name t, reaches_post_init w name t
                 ∧ truthy (confirm_input w) = true ∧ which_hugo w = None).
Proof.
  destruct (prompt_group_cases w) as [(n & t & Ha)|(o & Ho)].
  - rewrite (result_createAction _ _ _ Ha), clone_callback_result.
    unfold reaches_post_init.
    destruct (clone_result w) eqn:Hc; [done|].
    destruct (raw_result w) eqn:Hr; [done|].
    destruct (add_result w) eqn:Had; [done|].
    destruct (commit_result w) eqn:Hco; [done|].
    destruct (truthy (confirm_input w)) eqn:Hrun.
    + destruct (which_hugo w) eqn:Hw; [done|].
      intros [= <-]. right. split; [done|]. by exists n, t.
    + intros [= <-]. left. split; [done|]. right. by exists n, t.
  - rewrite (createAction_unanswered _ _ Ho). unfold result. cbn [snd].
    intros ->. destruct (prompt_group_halts _ _ Ho) as [[=]|[= ->]].
    left. by split; [|left].
Qed.

Lemma clone_callback_cd (w : World) (name : string) (t : template) :
  Forall (λ e, e = GitCwd name ∨ e = ShellCd name)
    (List.filter is_cd (clone_callback w name t).1).
Proof.
  callback_cases w; cbn [List.filter is_cd app];
    repeat (constructor; [by (left + right)|]); constructor.
Qed.

(** X10: the only directory the workflow ever moves into, with [git.cwd]
    or with [shell.cd], is the directory the clone was issued for. *)
Theorem moves_only_into_the_cloned_directory (w : World) (dir : string) :
  In (GitCwd dir) (trace (createAction w)) ∨ In (ShellCd dir) (trace (createAction w)) →
  ∃ t, answers w dir t
       ∧ In (GitClone (repositories t) dir (cloneOptions t)) (trace (createAction w)).
Proof.
  intros Hin.
  assert (He : ∃ e, (e = GitCwd dir ∨ e = ShellCd dir)
                    ∧ In e (List.filter is_cd (trace (createAction w)))).
  { destruct Hin as [Hin|Hin]; eexists; (split; [|apply List.filter_In; split;
      [exact Hin|reflexivity]]); by (left + right). }
  destruct He as (e & Hed & He).
  destruct (prompt_group_cases w) as [(n & t & Ha)|(o & Ho)].
  - rewrite (filter_createAction _ _ _ _ Ha) in He; [|by intros []|done].
    cbn [List.filter is_cd clone_header app] in He.
    pose proof (clone_callback_cd w n t) as Hall.
    rewrite Forall_forall in Hall. apply list_elem_of_In, Hall in He.
    assert (dir = n) as -> by (destruct Hed as [->| ->], He as [[=]|[=]]; done).
    exists t. split; [done|].
    rewrite (createAction_answers _ _ _ Ha). unfold trace. cbn [fst].
    right. rewrite !in_app_iff. right. left.
    unfold clone_header. do 3 right. by left.
  - rewrite (filter_createAction_unanswered _ _ _ Ho) in He; [|by intros []].
    destruct He.
Qed.

End CreateOutcomes.

(** ** The help and check workflows, further *)

Section HelpAndCheck.
Context `{Terminal}.

(** X11: help is never an error.  For every keyword the action returns
    without calling [process.exit] and makes no call to git, to the shell
    ([shell.which] included) or to the release feed; the pointer to
    [fixit --help] is written exactly for the keywords other than create,
    check and help. *)
Theorem help_never_fails (w : World) (command : string) :
  result (helpAction w command) = Returned
  ∧ none is_exit (trace (helpAction w command))
  ∧ none is_git_or_shell (trace (helpAction w command))
  ∧ none is_fetch (trace (helpAction w command))
  ∧ (In (LogWarn ("Refer to " +:+ blue "fixit --help" +:+ " for supported commands."))
        (trace (helpAction w command))
     ↔ command ≠ "create" ∧ command ≠ "check" ∧ command ≠ "help").
Proof.
  unfold helpAction, outro_done, timer_stop, timer_start, emit, none, trace, result.
  destruct (decide (command = "create")) as [->|Hcreate].
  { run_cbn. cbn [List.filter is_exit is_git_or_shell is_fetch In].
    do 4 (split; [done|]). split; [|by intros (? & ? & ?)].
    intros Hin. repeat (destruct Hin as [Hin|Hin]; [discriminate Hin|]). destruct Hin. }
  destruct (decide (command = "check")) as [->|Hcheck].
  { run_cbn. cbn [List.filter is_exit is_git_or_shell is_fetch In].
    do 4 (split; [done|]). split; [|by intros (? & ? & ?)].
    intros Hin. repeat (destruct Hin as [Hin|Hin]; [discriminate Hin|]). destruct Hin. }
  destruct (decide (command = "help")) as [->|Hhelp].
  { run_cbn. cbn [List.filter is_exit is_git_or_shell is_fetch In].
    do 4 (split; [done|]). split; [|by intros (? & ? & ?)].
    intros Hin. repeat (destruct Hin as [Hin|Hin]; [discriminate Hin|]). destruct Hin. }
  run_cbn. cbn [List.filter is_exit is_git_or_shell is_fetch In].
  do 4 (split; [done|]). split; [done|]. intros _. do 2 right. by left.
Qed.

(** X12: the check workflow asks for the latest release of
    hugo-fixit/FixIt exactly once on every path and makes no call to git or
    to the shell ([shell.which] included); it leaves with status 1 exactly
    when the fetch failed, and otherwise returns. *)
Theorem check_outcomes (w : World) :
  List.filter is_fetch (trace (checkAction w)) = [GetLatestRelease "hugo-fixit" "FixIt"]
  ∧ none is_git_or_shell (trace (checkAction w))
  ∧ (result (checkAction w) = Exited 1 ↔ ∃ err, fetch_result w = inl err)
  ∧ (result (checkAction w) = Returned ↔ ∃ r, fetch_result w = inr r).
Proof.
  unfold none. destruct (fetch_result w) as [err|r] eqn:Hf.
  - rewrite (checkAction_failure _ _ Hf). unfold trace, result. cbn [fst snd].
    repeat split; try done.
    + intros _. by exists err.
    + by intros (r & [=]).
  - rewrite (checkAction_success _ _ Hf). unfold trace, result. cbn [fst snd].
    repeat split; try done.
    + by intros (err & [=]).
    + intros _. by exists r.
Qed.

(** X13: the check action of src/lib/actions.ts never sets an exit status.
    On both paths it asks for the release once and returns; after a failed
    fetch it has logged the error, converted to a string, and the token
    hint. *)
Theorem lib_check_never_exits (w : World) :
  result (Lib.checkAction w) = Returned
  ∧ none is_exit (trace (Lib.checkAction w))
  ∧ List.filter is_fetch (trace (Lib.checkAction w)) = [GetLatestRelease "hugo-fixit" "FixIt"]
  ∧ (∀ err, fetch_result w = inl err →
       In (ConsoleLog (red (Error_toString err))) (trace (Lib.checkAction w))
       ∧ ∃ hint, last (trace (Lib.checkAction w)) = Some (ConsoleLog hint)
                 ∧ occurs_in "set GITHUB_TOKEN env" hint).
Proof.
  unfold Lib.checkAction, emit, none, trace, result.
  destruct (fetch_result w) as [err|r]; run_cbn;
    cbn [List.filter is_exit is_fetch]; (split; [done|]); (split; [done|]);
    (split; [done|]); [|by intros err' [=]].
  intros err' [= <-]. split; [cbn [In]; do 4 right; by left|].
  eexists. split; [reflexivity|].
  exists (LF +:+ green "Note:" +:+ LF +:+ "You can "),
         (" to avoid GitHub API rate limit." +:+ LF
          +:+ "Run command " +:+ blue "fixit help check" +:+ " for more details." +:+ LF).
  rewrite !append_assoc. reflexivity.
Qed.

End HelpAndCheck.

(** ** Lines, further *)

Lemma split_lines_one (l : string) :
  has_line_feed l = false → split_lines l = [l].
Proof.
  induction l as [|ch l IH]; [done|]. cbn [has_line_feed split_lines].
  intros Hl. apply orb_false_elim in Hl as [Hch Hl].
  apply bool_decide_eq_false_1 in Hch.
  destruct (decide (ch = LF_char)); [done|]. by rewrite (IH Hl).
Qed.

Lemma split_lines_append (l s : string) :
  has_line_feed l = false →
  split_lines (l +:+ LF +:+ s) = l :: split_lines s.
Proof.
  induction l as [|ch l IH].
  - intros _. change ("" +:+ LF +:+ s) with (String LF_char s).
    cbn [split_lines]. by destruct (decide (LF_char = LF_char)).
  - cbn [has_line_feed]. intros Hl. apply orb_false_elim in Hl as [Hch Hl].
    apply bool_decide_eq_false_1 in Hch.
    change (String ch l +:+ LF +:+ s) with (String ch (l +:+ LF +:+ s)).
    cbn [split_lines]. destruct (decide (ch = LF_char)); [done|].
    by rewrite (IH Hl).
Qed.

(** X14: splitting undoes joining.  For a non-empty list of single lines,
    the pieces of the joined text are the lines themselves, so the lines a
    changelog is styled by are exactly its lines. *)
Theorem split_join_lines (ls : list string) :
  ls ≠ [] →
  Forall (λ l, has_line_feed l = false) ls →
  split_lines (join_lines ls) = ls.
Proof.
  intros Hne Hall. induction Hall as [|l ls Hl Hls IH]; [done|].
  destruct ls as [|l' ls].
  - cbn [join_lines]. by apply split_lines_one.
  - rewrite join_lines_cons, split_lines_append by done.
    f_equal. by apply IH.
Qed.

(** X15: on a terminal whose gray leaves strings as they are, the release
    notes hold the changelog verbatim, whatever its line breaks. *)
Theorem release_notes_keep_the_changelog `{Terminal} (r : ReleaseInfo) :
  (∀ s, gray s = s) →
  release_notes r
  = "Release Notes: " +:+ cyan (homeUrl r) +:+ LF +:+ LF +:+ changelog r.
Proof.
  intros Hgray. unfold release_notes.
  assert (Hmap : map gray (split_lines (changelog r)) = split_lines (changelog r)).
  { induction (split_lines (changelog r)) as [|l ls IH]; [done|].
    cbn [map]. by rewrite Hgray, IH. }
  by rewrite Hmap, join_split_lines.
Qed.

(** ** The older create workflow, further *)

Section LibCreate.
Context `{Terminal}.

(** X16: when every step succeeds, the create action of src/lib/actions.ts
    ends by printing the command that starts the server, for the name its
    own prompt resolved to, and returns: it asks no post-init question and
    looks for no hugo binary. *)
Theorem lib_create_ends_with_the_manual_command (w : World) (name : string) (t : template) :
  lib_answers w name t →
  clone_result w = None →
  raw_result w = None →
  add_result w = None →
  commit_result w = None →
  last (trace (Lib.createAction w))
  = Some (ConsoleLog (blue ("cd " +:+ name +:+ " && hugo server -O") +:+ LF +:+ LF
                      +:+ "Go! Enjoy it and Fix it! 🐛"))
  ∧ none is_post_init (trace (Lib.createAction w))
  ∧ result (Lib.createAction w) = Returned.
Proof.
  intros Ha Hc Hr Had Hco. unfold none. split; [|split].
  - rewrite (lib_createAction_answers _ _ _ Ha). unfold trace. cbn [fst].
    rewrite !last_app.
    unfold_lib_callbacks. rewrite Hc, Hr, Had, Hco.
    destruct (removeRemote_arrival w), (removeRemote_result w); run_cbn; reflexivity.
  - rewrite (filter_lib_createAction _ _ _ _ Ha); [|by intros []|done].
    unfold_lib_callbacks. rewrite Hc, Hr, Had, Hco.
    destruct (removeRemote_arrival w), (removeRemote_result w); run_cbn;
      cbn [List.filter is_post_init lib_header app]; reflexivity.
  - rewrite (lib_createAction_answers _ _ _ Ha). unfold result. cbn [snd].
    unfold_lib_callbacks. rewrite Hc, Hr, Had, Hco.
    destruct (removeRemote_arrival w), (removeRemote_result w); run_cbn; reflexivity.
Qed.

End LibCreate.

(** ** Sample runs

    The statements above at concrete worlds, on a terminal without colours. *)

#[local] Existing Instance plain.

Lemma clone_failure_witness :
  answers clone_fails_world "my-blog" git
  ∧ clone_result clone_fails_world = Some clone_error
  ∧ last (trace (createAction clone_fails_world))
    = Some (SpinnerStop spinnerClone (message clone_error) (-1))
  ∧ none is_later_step (trace (createAction clone_fails_world))
  ∧ none is_exit (trace (createAction clone_fails_world))
  ∧ result (createAction clone_fails_world) = Returned.
Proof.
  assert (Ha : answers clone_fails_world "my-blog" git) by (vm_compute; reflexivity).
  assert (Hc : clone_result clone_fails_world = Some clone_error) by reflexivity.
  split; [exact Ha|]. split; [exact Hc|].
  exact (clone_failure_surfaces_and_returns clone_fails_world "my-blog" git clone_error Ha Hc).
Defined.

(** C1 as stated fails: after a failed clone the run ends by returning from
    the callback, which leaves the process with status 0, not 1. *)
Lemma clone_failure_status_is_not_1 :
  answers clone_fails_world "my-blog" git
  ∧ clone_result clone_fails_world = Some clone_error
  ∧ result (createAction clone_fails_world) = Returned
  ∧ exit_status (result (createAction clone_fails_world)) = Some 0
  ∧ exit_status (result (createAction clone_fails_world)) ≠ Some 1.
Proof. repeat split; try (vm_compute; reflexivity). vm_compute. discriminate. Qed.

Lemma history_deletion_witness :
  answers remote_fails_world "my-blog" git
  ∧ clone_result remote_fails_world = None
  ∧ removeRemote_result remote_fails_world = Some remote_error
  ∧ count is_history_deletion (trace (createAction remote_fails_world)) = 1%nat
  ∧ In (SpinnerStop spinnerInit (message remote_error) (-1))
       (trace (createAction remote_fails_world)).
Proof.
  assert (Ha : answers remote_fails_world "my-blog" git) by (vm_compute; reflexivity).
  assert (Hc : clone_result remote_fails_world = None) by reflexivity.
  assert (Hr : removeRemote_result remote_fails_world = Some remote_error) by reflexivity.
  destruct (history_deletion_issued_regardless remote_fails_world "my-blog" git Ha Hc)
    as (Hcount & _ & Hrep).
  split; [exact Ha|]. split; [exact Hc|]. split; [exact Hr|].
  split; [exact Hcount|]. exact (Hrep remote_error Hr).
Defined.

Lemma post_init_choice_witness :
  (reaches_post_init declined_world "my-blog" git
   ∧ confirm_input declined_world = ConfirmValue false
   ∧ result (createAction declined_world) = Exited 0
   ∧ none is_spawn (trace (createAction declined_world)))
  ∧ (reaches_post_init no_hugo_world "my-blog" git
     ∧ which_hugo no_hugo_world = None
     ∧ result (createAction no_hugo_world) = Exited 1
     ∧ none is_spawn (trace (createAction no_hugo_world)))
  ∧ (reaches_post_init happy_world "my-blog" git
     ∧ which_hugo happy_world = Some "/usr/local/bin/hugo"
     ∧ result (createAction happy_world) = Returned).
Proof.
  assert (H1 : reaches_post_init declined_world "my-blog" git)
    by (repeat split; vm_compute; reflexivity).
  assert (H2 : reaches_post_init no_hugo_world "my-blog" git)
    by (repeat split; vm_compute; reflexivity).
  assert (H3 : reaches_post_init happy_world "my-blog" git)
    by (repeat split; vm_compute; reflexivity).
  split; [|split].
  - destruct (post_init_choice declined_world "my-blog" git H1) as (Hd & _ & _).
    destruct (Hd eq_refl) as (Hres & Hsp & _). done.
  - destruct (post_init_choice no_hugo_world "my-blog" git H2) as (_ & Hn & _).
    destruct (Hn eq_refl eq_refl) as (Hres & Hsp & _). done.
  - destruct (post_init_choice happy_world "my-blog" git H3) as (_ & _ & Hh).
    destruct (Hh eq_refl "/usr/local/bin/hugo" eq_refl) as (Hres & _). done.
Defined.

Lemma cancelled_confirm_witness :
  reaches_post_init cancelled_confirm_world "my-blog" git
  ∧ confirm_input cancelled_confirm_world = ConfirmCancel
  ∧ result (createAction cancelled_confirm_world) ≠ Exited 0
  ∧ In (ShellWhich "hugo") (trace (createAction cancelled_confirm_world))
  ∧ ∃ pre, trace (createAction cancelled_confirm_world)
           = (pre ++ [ShellCd "my-blog"; ShellExec "hugo server -O"])%list.
Proof.
  assert (Hr : reaches_post_init cancelled_confirm_world "my-blog" git)
    by (repeat split; vm_compute; reflexivity).
  destruct (cancelled_confirm_is_acceptance cancelled_confirm_world "my-blog" git Hr eq_refl)
    as (_ & Hne & Hw & _ & Hs).
  split; [exact Hr|]. split; [reflexivity|]. split; [exact Hne|]. split; [exact Hw|].
  exact (Hs "/usr/local/bin/hugo" eq_refl).
Defined.

Lemma empty_name_witness :
  Forall (λ s, s = Submit "" ∨ s = Abort) [Submit ""; Submit ""]
  ∧ count is_clone
      (trace (createAction (with_name_inputs [Submit ""; Submit ""] happy_world)))
    = 0%nat.
Proof.
  assert (Hall : Forall (λ s, s = Submit "" ∨ s = Abort) [Submit ""; Submit ""])
    by (repeat constructor).
  split; [exact Hall|].
  destruct (empty_name_never_cloned (with_name_inputs [Submit ""; Submit ""] happy_world))
    as (_ & _ & _ & Hno).
  exact (Hno Hall).
Defined.

(** C4 as stated fails for names of white space only: a name of three
    spaces passes the validation and is cloned. *)
Lemma blank_name_is_cloned :
  blank "   " = true
  ∧ validate "   " = None
  ∧ List.filter is_clone (trace (createAction blank_name_world))
    = [GitClone (repositories git) "   " (cloneOptions git)].
Proof. repeat split; vm_compute; reflexivity. Qed.

Lemma clone_options_witness :
  In (GitClone (repositories git) "my-blog" (cloneOptions git))
     (trace (createAction happy_world))
  ∧ ∃ t, template_input happy_world = Pick t
    ∧ repositories git = repositories t
    ∧ cloneOptions git !! "--depth" = Some (JNum 1)
    ∧ cloneOptions git !! "--branch" = Some (JStr "main")
    ∧ cloneOptions git !! "--single-branch" = Some JNull
    ∧ match t with
      | git => cloneOptions git !! "--recurse-submodules" = Some JUndefined
               ∧ cloneOptions git !! "--shallow-submodules" = Some JUndefined
               ∧ size (cloneOptions git) = 5%nat
      | go => cloneOptions git !! "--recurse-submodules" = None
              ∧ cloneOptions git !! "--shallow-submodules" = None
              ∧ size (cloneOptions git) = 3%nat
      end.
Proof.
  assert (Hin : In (GitClone (repositories git) "my-blog" (cloneOptions git))
                  (trace (createAction happy_world))).
  { assert (Ha : answers happy_world "my-blog" git) by (vm_compute; reflexivity).
    rewrite (createAction_answers _ _ _ Ha). unfold trace. cbn [fst].
    right. rewrite !in_app_iff. right. left.
    unfold clone_header. do 3 right. left. reflexivity. }
  split; [exact Hin|].
  exact (clone_options_by_template happy_world _ _ _ Hin).
Defined.

Lemma check_success_witness :
  fetch_result happy_world = inr sample_release
  ∧ occurs_in "hugo mod get -u github.com/hugo-fixit/FixIt@v1.2.3"
      (upgrade_commands "v1.2.3")
  ∧ In (LogInfo ("Release Notes: https://example.com/r" +:+ LF +:+ LF
                 +:+ "- fix A" +:+ LF +:+ "- fix B"))
       (List.filter is_output (trace (checkAction happy_world))).
Proof.
  destruct (check_success_rendering happy_world sample_release eq_refl)
    as (Hout & _ & Hmod & _).
  split; [reflexivity|]. split; [exact Hmod|].
  rewrite Hout. right. left. vm_compute. reflexivity.
Defined.

Lemma check_failure_witness :
  fetch_result fetch_fails_world = inl http_403
  ∧ In (LogError "HTTP 403") (trace (checkAction fetch_fails_world))
  ∧ List.filter is_log_step (trace (checkAction fetch_fails_world)) = [LogStep token_hint]
  ∧ count is_fetch (trace (checkAction fetch_fails_world)) = 1%nat
  ∧ exit_status (result (checkAction fetch_fails_world)) = Some 1.
Proof.
  destruct (check_failure_exits fetch_fails_world http_403 eq_refl)
    as (Herr & Hhint & _ & Hfetch & _ & Hstatus).
  split; [reflexivity|]. done.
Defined.

Lemma stopwatch_witness :
  fetch_result happy_world = inr sample_release
  ∧ reaches_post_init happy_world "my-blog" git
  ∧ count is_timer_stop (trace (checkAction happy_world)) = 1%nat
  ∧ final_output (trace (checkAction happy_world)) = Some (Outro "Done in 1234/1000s")
  ∧ count is_timer_stop (trace (createAction happy_world)) = 1%nat
  ∧ final_output (trace (createAction happy_world)) = Some (Outro "Done in 1234/1000s").
Proof.
  assert (Hr : reaches_post_init happy_world "my-blog" git)
    by (repeat split; vm_compute; reflexivity).
  destruct (stopwatch_reported_where_stopped happy_world) as (_ & Hcheck & Hcreate & _).
  destruct (Hcheck sample_release eq_refl) as (Hc1 & Hc2).
  destruct (Hcreate "my-blog" git Hr) as (Hk1 & Hk2).
  split; [reflexivity|]. split; [exact Hr|]. done.
Defined.

(** C8 as stated fails on the failure path of check: the run ends with
    status 1, the stopwatch is never stopped, and the last line written is
    the token hint, not a duration.  The same holds after a failed clone. *)
Lemma check_failure_never_stops :
  fetch_result fetch_fails_world = inl http_403
  ∧ result (checkAction fetch_fails_world) = Exited 1
  ∧ count is_timer_stop (trace (checkAction fetch_fails_world)) = 0%nat
  ∧ final_output (trace (checkAction fetch_fails_world)) = Some (LogStep token_hint)
  ∧ result (createAction clone_fails_world) = Returned
  ∧ count is_timer_stop (trace (createAction clone_fails_world)) = 0%nat.
Proof. repeat split; vm_compute; reflexivity. Qed.



(** *** Further sample runs *)

Lemma reprompt_witness :
  name_inputs happy_world = after_empty 1 [Submit "my-blog"]
  ∧ "my-blog" ≠ ""
  ∧ template_input happy_world = Pick git
  ∧ prompt_group happy_world
    = ([Text "Please input project name:" "project name" "my-blog";
        ValidateError "project name is required!";
        Select "Please choose a template:"
          [(go, "Hugo module based"); (git, "Git submodule based")]],
       inr ("my-blog", git)).
Proof.
  assert (Hn : "my-blog" ≠ "") by discriminate.
  split; [reflexivity|]. split; [exact Hn|]. split; [reflexivity|].
  exact (empty_submissions_are_reprompted happy_world 1 "my-blog" [] git
           eq_refl Hn eq_refl).
Defined.

Lemma cancelled_prompt_witness :
  name_inputs name_cancelled_world = after_empty 1 (Abort :: [Submit "my-blog"])
  ∧ result (createAction name_cancelled_world) = Exited 0
  ∧ none is_git_or_shell (trace (createAction name_cancelled_world))
  ∧ template_input select_cancelled_world = SelectCancel
  ∧ result (createAction select_cancelled_world) = Exited 0
  ∧ none is_git_or_shell (trace (createAction select_cancelled_world)).
Proof.
  assert (Hn : "my-blog" ≠ "") by discriminate.
  destruct (cancelled_prompt_exits_cleanly name_cancelled_world)
    as (Hr1 & _ & _ & He1 & _).
  { left. by exists 1%nat, [Submit "my-blog"]. }
  destruct (cancelled_prompt_exits_cleanly select_cancelled_world)
    as (Hr2 & _ & _ & He2 & _).
  { right. by exists 1%nat, "my-blog", []. }
  done.
Defined.

Lemma history_deletion_failure_witness :
  answers raw_fails_first_world "my-blog" git
  ∧ clone_result raw_fails_first_world = None
  ∧ raw_result raw_fails_first_world = Some history_error
  ∧ In (SpinnerStop spinnerInit (message history_error) (-1))
       (trace (createAction raw_fails_first_world))
  ∧ none is_baseline_or_later (trace (createAction raw_fails_first_world))
  ∧ none is_timer_stop (trace (createAction raw_fails_first_world))
  ∧ result (createAction raw_fails_first_world) = Rejected history_error.
Proof.
  assert (Ha : answers raw_fails_first_world "my-blog" git) by (vm_compute; reflexivity).
  split; [exact Ha|]. split; [reflexivity|]. split; [reflexivity|].
  exact (history_deletion_failure_stops_the_run raw_fails_first_world "my-blog" git
           history_error Ha eq_refl eq_refl).
Defined.

Lemma baseline_commit_failure_witness :
  answers add_fails_first_world "my-blog" git
  ∧ clone_result add_fails_first_world = None
  ∧ raw_result add_fails_first_world = None
  ∧ add_result add_fails_first_world = Some add_error
  ∧ In (GitAdd "./*") (trace (createAction add_fails_first_world))
  ∧ none is_commit (trace (createAction add_fails_first_world))
  ∧ none is_post_init (trace (createAction add_fails_first_world))
  ∧ result (createAction add_fails_first_world) = Rejected add_error.
Proof.
  assert (Ha : answers add_fails_first_world "my-blog" git) by (vm_compute; reflexivity).
  destruct (baseline_commit_failure_stops_the_run add_fails_first_world "my-blog" git
              add_error Ha eq_refl eq_refl) as (Hadd & _).
  split; [exact Ha|]. split; [reflexivity|]. split; [reflexivity|].
  split; [reflexivity|]. exact (Hadd eq_refl).
Defined.

Lemma git_calls_witness :
  answers happy_world "my-blog" git
  ∧ List.filter is_git (trace (createAction happy_world)) = git_steps "my-blog" git
  ∧ answers clone_fails_world "my-blog" git
  ∧ List.filter is_git (trace (createAction clone_fails_world))
    = take 2 (git_steps "my-blog" git).
Proof.
  assert (Ha : answers happy_world "my-blog" git) by (vm_compute; reflexivity).
  assert (Hb : answers clone_fails_world "my-blog" git) by (vm_compute; reflexivity).
  split; [exact Ha|]. split; [|split; [exact Hb|]].
  - exact (git_calls_are_an_initial_segment happy_world "my-blog" git Ha).
  - exact (git_calls_are_an_initial_segment clone_fails_world "my-blog" git Hb).
Defined.

Lemma exit_status_witness :
  result (createAction no_hugo_world) = Exited 1
  ∧ ∃ name t, reaches_post_init no_hugo_world name t
              ∧ truthy (confirm_input no_hugo_world) = true
              ∧ which_hugo no_hugo_world = None.
Proof.
  assert (Hr : result (createAction no_hugo_world) = Exited 1)
    by (vm_compute; reflexivity).
  split; [exact Hr|].
  destruct (create_exit_statuses no_hugo_world 1 Hr) as [[Hz _]|[_ Hex]];
    [discriminate Hz|exact Hex].
Defined.

Lemma cloned_directory_witness :
  In (GitCwd "my-blog") (trace (createAction happy_world))
  ∧ ∃ t, answers happy_world "my-blog" t
         ∧ In (GitClone (repositories t) "my-blog" (cloneOptions t))
              (trace (createAction happy_world)).
Proof.
  assert (Ha : answers happy_world "my-blog" git) by (vm_compute; reflexivity).
  assert (Hin : In (GitCwd "my-blog") (trace (createAction happy_world))).
  { rewrite (createAction_answers _ _ _ Ha). unfold trace. cbn [fst].
    right. rewrite !in_app_iff. do 3 right.
    vm_compute. do 2 right. left. reflexivity. }
  split; [exact Hin|].
  exact (moves_only_into_the_cloned_directory happy_world "my-blog" (or_introl Hin)).
Defined.

Lemma lib_check_witness :
  fetch_result fetch_fails_world = inl http_403
  ∧ result (Lib.checkAction fetch_fails_world) = Returned
  ∧ In (ConsoleLog "Error: HTTP 403") (trace (Lib.checkAction fetch_fails_world)).
Proof.
  destruct (lib_check_never_exits fetch_fails_world) as (Hr & _ & _ & Hf).
  destruct (Hf http_403 eq_refl) as (Hin & _).
  split; [reflexivity|]. split; [exact Hr|exact Hin].
Defined.

Lemma split_join_witness :
  ["- fix A"; "- fix B"] ≠ []
  ∧ Forall (λ l, has_line_feed l = false) ["- fix A"; "- fix B"]
  ∧ split_lines (join_lines ["- fix A"; "- fix B"]) = ["- fix A"; "- fix B"].
Proof.
  assert (Hne : ["- fix A"; "- fix B"] ≠ []) by discriminate.
  assert (Hall : Forall (λ l, has_line_feed l = false) ["- fix A"; "- fix B"])
    by (repeat constructor).
  split; [exact Hne|]. split; [exact Hall|].
  exact (split_join_lines ["- fix A"; "- fix B"] Hne Hall).
Defined.

Lemma release_notes_witness :
  (∀ s, gray s = s)
  ∧ release_notes sample_release
    = "Release Notes: " +:+ cyan (homeUrl sample_release) +:+ LF +:+ LF
      +:+ changelog sample_release.
Proof.
  assert (Hgray : ∀ s, gray s = s) by reflexivity.
  split; [exact Hgray|].
  exact (release_notes_keep_the_changelog sample_release Hgray).
Defined.

Lemma lib_create_witness :
  lib_answers typed_name_world "my-blog" git
  ∧ result (Lib.createAction typed_name_world) = Returned
  ∧ none is_post_init (trace (Lib.createAction typed_name_world)).
Proof.
  assert (Ha : lib_answers typed_name_world "my-blog" git) by (vm_compute; reflexivity).
  destruct (lib_create_ends_with_the_manual_command typed_name_world "my-blog" git
              Ha eq_refl eq_refl eq_refl eq_refl) as (_ & Hn & Hr).
  split; [exact Ha|]. split; [exact Hr|exact Hn].
Defined.

Lemma lib_default_witness :
  or_empty (argv3 default_name_world) ≠ ""
  ∧ name_inputs default_name_world = [Submit ""; Submit "my-blog"]
  ∧ lib_answers default_name_world "site" go
  ∧ answers default_name_world "my-blog" go.
Proof.
  assert (Hd : or_empty (argv3 default_name_world) ≠ "") by discriminate.
  assert (Hn : "my-blog" ≠ "") by discriminate.
  destruct (lib_name_is_first_line_or_default default_name_world go) as (_ & Hpart).
  split; [exact Hd|]. split; [reflexivity|].
  exact (Hpart "my-blog" [] Hd eq_refl Hn eq_refl).
Defined.
